(** * LoadTesting/loadtesting.js: a shallow embedding of the k6 load script

    The script drives one HTTP endpoint through a retry loop ([makeRequest]),
    keeps every observation in the process-wide [rawData] arrays and in k6
    metric objects, sorts latencies into fixed buckets
    ([getResponseTimeBucket]) and prints an assessment ([handleSummary]).

    Conventions of the embedding.
    - Times are integer milliseconds ([Z]), as [Date.now()] returns them.
    - The numbers of the k6 summary object are IEEE binary64 values, the
      numbers of JavaScript: they are modelled by Rocq's primitive floats.
    - JavaScript objects used as maps are [gmap string _]; arrays are lists
      and [push] appends at the end.
    - The outside world (clock, endpoint, [sleep]) is an explicit state that
      the effectful functions thread through a small state monad. Time
      passes inside [http.get] and [sleep] only: two readings of
      [Date.now()] with neither in between agree. *)

From Stdlib Require Import ZArith List Lia Floats Sorted.
From stdpp Require Import gmap strings list fin_maps.

(* Decimal literals of the script are read as their nearest binary64
   value, as JavaScript reads them. *)
#[local] Set Warnings "-inexact-float".

Local Open Scope string_scope.
Local Open Scope list_scope.
Local Open Scope Z_scope.

(** ** Data model *)

(** The part of a k6 response the script reads: [r.status] and
    [r.headers]. A header that is absent reads as [undefined]. *)
Module Response.
Record t := mk { status : Z; headers : gmap string string }.
End Response.

(** What the endpoint does on one physical call: the response it hands
    back and the time the call blocked for. *)
Record Exchange := { answer : Response.t; latency : Z }.

(** The [status] property of the stored and returned objects: the numeric
    status of the response, or the string ['failed']. *)
Inductive StatusField :=
| StatusCode (code : Z)
| StatusFailed.

(** [requestData] / [failedRequestData] *)
Module RequestData.
Record t := mk {
  timestamp : Z;
  userId : Z;
  requestId : Z;
  backend : string;
  responseTime : Z;
  status : StatusField;
  retries : nat;
  success : bool }.
End RequestData.

(** The object [makeRequest] returns. *)
Module Outcome.
Record t := mk {
  success : bool;
  responseTime : Z;
  backend : string;
  retries : nat;
  status : StatusField }.
End Outcome.

(** [rawData]: one growing array per observed quantity. *)
Module RawData.
Record t := mk {
  requests : list RequestData.t;
  responseTimes : list Z;
  backends : list string;
  retries : list nat;
  timestamps : list Z;
  userSessions : list Z }.

Definition empty : t := mk [] [] [] [] [] [].

(** Total number of array cells held by the object. *)
Definition size (d : t) : nat :=
  (length (requests d) + length (responseTimes d) + length (backends d)
   + length (retries d) + length (timestamps d) + length (userSessions d))%nat.
End RawData.

(** A k6 metric object is modelled by the samples handed to its [add]:
    a value and the tag object given with it. *)
Record Sample := { value : Z; tags : list (string * string) }.

Module Metrics.
Record t := mk {
  errorRate : list Sample;
  responseTimeTrend : list Sample;
  backendDistribution : list Sample;
  retryCounter : list Sample;
  activeUsers : list Sample;
  requestsPerSecond : list Sample;
  responseTimeBuckets : list Sample }.

Definition empty : t := mk [] [] [] [] [] [] [].
End Metrics.

(** [TEST_CONFIG]; the fields [makeRequest] reads. *)
Record TestConfig := {
  ENDPOINT : string;
  MAX_RETRIES : nat;
  REQUEST_TIMEOUT : string }.

Definition TEST_CONFIG : TestConfig :=
  {| ENDPOINT := "https://localhost/get/messages";
     MAX_RETRIES := 2;
     REQUEST_TIMEOUT := "20s" |}.

(** ** The world the script runs in *)

Record World := mkWorld {
  clock : Z;               (* what [Date.now()] reads *)
  calls : nat;             (* [http.get] calls made so far *)
  slept : list Z;          (* arguments of [sleep], in seconds, oldest first *)
  rawData : RawData.t;
  metrics : Metrics.t }.

Definition initialWorld : World := mkWorld 0 0 [] RawData.empty Metrics.empty.

(** The endpoint: its behaviour on the n-th physical call of the run. *)
Definition Endpoint := nat -> Exchange.

(** *** A state monad over the world *)

Definition Eff (A : Type) : Type := World -> A * World.

Definition ret {A} (a : A) : Eff A := fun w => (a, w).

Definition bind {A B} (m : Eff A) (k : A -> Eff B) : Eff B :=
  fun w => let (a, w') := m w in k a w'.

Declare Scope eff_scope.
Delimit Scope eff_scope with eff.
Bind Scope eff_scope with Eff.

Notation "x <- m ;; k" := (bind m (fun x => k))
  (at level 100, m at next level, k at level 200, right associativity) : eff_scope.
Notation "m ;; k" := (bind m (fun _ => k))
  (at level 100, k at level 200, right associativity) : eff_scope.

Local Open Scope eff_scope.

(** [Date.now()] *)
Definition Date_now : Eff Z := fun w => (clock w, w).

(** [http.get(url, params)]: the next exchange of the endpoint; the clock
    moves on by the time the call took. *)
Definition http_get (net : Endpoint) (url : string) : Eff Response.t :=
  fun w =>
    let x := net (calls w) in
    (answer x,
     mkWorld (clock w + latency x) (S (calls w)) (slept w) (rawData w) (metrics w)).

(** [sleep(seconds)] *)
Definition sleep (seconds : Z) : Eff unit :=
  fun w =>
    (tt, mkWorld (clock w + 1000 * seconds) (calls w) (slept w ++ [seconds])
                 (rawData w) (metrics w)).

(** [check(value, sets)]: true when every named predicate holds. *)
Definition check {A} (v : A) (sets : list (string * (A -> bool))) : bool :=
  forallb (fun c => snd c v) sets.

Definition modify_rawData (f : RawData.t -> RawData.t) : Eff unit :=
  fun w => (tt, mkWorld (clock w) (calls w) (slept w) (f (rawData w)) (metrics w)).

Definition modify_metrics (f : Metrics.t -> Metrics.t) : Eff unit :=
  fun w => (tt, mkWorld (clock w) (calls w) (slept w) (rawData w) (f (metrics w))).

(** [rawData.<array>.push(x)] *)
Definition push_requests (x : RequestData.t) : Eff unit :=
  modify_rawData (fun d =>
    RawData.mk (RawData.requests d ++ [x]) (RawData.responseTimes d)
      (RawData.backends d) (RawData.retries d) (RawData.timestamps d)
      (RawData.userSessions d)).

Definition push_responseTimes (x : Z) : Eff unit :=
  modify_rawData (fun d =>
    RawData.mk (RawData.requests d) (RawData.responseTimes d ++ [x])
      (RawData.backends d) (RawData.retries d) (RawData.timestamps d)
      (RawData.userSessions d)).

Definition push_backends (x : string) : Eff unit :=
  modify_rawData (fun d =>
    RawData.mk (RawData.requests d) (RawData.responseTimes d)
      (RawData.backends d ++ [x]) (RawData.retries d) (RawData.timestamps d)
      (RawData.userSessions d)).

Definition push_retries (x : nat) : Eff unit :=
  modify_rawData (fun d =>
    RawData.mk (RawData.requests d) (RawData.responseTimes d)
      (RawData.backends d) (RawData.retries d ++ [x]) (RawData.timestamps d)
      (RawData.userSessions d)).

Definition push_timestamps (x : Z) : Eff unit :=
  modify_rawData (fun d =>
    RawData.mk (RawData.requests d) (RawData.responseTimes d)
      (RawData.backends d) (RawData.retries d) (RawData.timestamps d ++ [x])
      (RawData.userSessions d)).

(** [<metric>.add(value, tags)] *)
Definition errorRate_add (v : Z) (tg : list (string * string)) : Eff unit :=
  modify_metrics (fun m =>
    Metrics.mk (Metrics.errorRate m ++ [Build_Sample v tg])
      (Metrics.responseTimeTrend m) (Metrics.backendDistribution m)
      (Metrics.retryCounter m) (Metrics.activeUsers m)
      (Metrics.requestsPerSecond m) (Metrics.responseTimeBuckets m)).

Definition responseTimeTrend_add (v : Z) (tg : list (string * string)) : Eff unit :=
  modify_metrics (fun m =>
    Metrics.mk (Metrics.errorRate m)
      (Metrics.responseTimeTrend m ++ [Build_Sample v tg])
      (Metrics.backendDistribution m)
      (Metrics.retryCounter m) (Metrics.activeUsers m)
      (Metrics.requestsPerSecond m) (Metrics.responseTimeBuckets m)).

Definition backendDistribution_add (v : Z) (tg : list (string * string)) : Eff unit :=
  modify_metrics (fun m =>
    Metrics.mk (Metrics.errorRate m) (Metrics.responseTimeTrend m)
      (Metrics.backendDistribution m ++ [Build_Sample v tg])
      (Metrics.retryCounter m) (Metrics.activeUsers m)
      (Metrics.requestsPerSecond m) (Metrics.responseTimeBuckets m)).

Definition retryCounter_add (v : Z) (tg : list (string * string)) : Eff unit :=
  modify_metrics (fun m =>
    Metrics.mk (Metrics.errorRate m) (Metrics.responseTimeTrend m)
      (Metrics.backendDistribution m)
      (Metrics.retryCounter m ++ [Build_Sample v tg]) (Metrics.activeUsers m)
      (Metrics.requestsPerSecond m) (Metrics.responseTimeBuckets m)).

Definition requestsPerSecond_add (v : Z) (tg : list (string * string)) : Eff unit :=
  modify_metrics (fun m =>
    Metrics.mk (Metrics.errorRate m) (Metrics.responseTimeTrend m)
      (Metrics.backendDistribution m)
      (Metrics.retryCounter m) (Metrics.activeUsers m)
      (Metrics.requestsPerSecond m ++ [Build_Sample v tg])
      (Metrics.responseTimeBuckets m)).

Definition responseTimeBuckets_add (v : Z) (tg : list (string * string)) : Eff unit :=
  modify_metrics (fun m =>
    Metrics.mk (Metrics.errorRate m) (Metrics.responseTimeTrend m)
      (Metrics.backendDistribution m)
      (Metrics.retryCounter m) (Metrics.activeUsers m)
      (Metrics.requestsPerSecond m)
      (Metrics.responseTimeBuckets m ++ [Build_Sample v tg])).

(** ** Pure helpers of the script *)

(** [getResponseTimeBucket(responseTime)] *)
Definition getResponseTimeBucket (responseTime : Z) : string :=
  if responseTime <? 100 then "0-100ms"
  else if responseTime <? 200 then "100-200ms"
  else if responseTime <? 500 then "200-500ms"
  else if responseTime <? 1000 then "500-1000ms"
  else if responseTime <? 2000 then "1000-2000ms"
  else if responseTime <? 5000 then "2000-5000ms"
  else "5000ms+".

(** JavaScript's [a || b] on a header lookup: [undefined] and the empty
    string are falsy, every other string is truthy. *)
Definition js_or (a : option string) (b : string) : string :=
  match a with
  | Some s => if decide (s = "") then b else s
  | None => b
  end.

(** The expression bound to [backend] on the success path. *)
Definition backendOf (response : Response.t) : string :=
  js_or (Response.headers response !! "X-Backend-Server")
    (js_or (Response.headers response !! "X-Server")
       (js_or (Response.headers response !! "Server")
          "unknown")).

(** [Math.min(1000 * Math.pow(2, retryCount - 1), 2000)]. The script
    evaluates it after [retryCount++], so with [retryCount >= 1], where the
    power is an integer. *)
Definition backoffTime (retryCount : nat) : Z :=
  Z.min (1000 * 2 ^ (Z.of_nat retryCount - 1)) 2000.

(** The two checks of [makeRequest]. *)
Definition request_checks : list (string * (Response.t -> bool)) :=
  [ ("status is 200", fun r => Response.status r =? 200);
    ("response received", fun r => negb (Response.status r =? 0)) ].

#[global] Arguments check : simpl never.
#[global] Arguments backendOf : simpl never.
#[global] Arguments backoffTime : simpl never.
#[global] Arguments getResponseTimeBucket : simpl never.

(** ** [makeRequest] *)

(** How the [while] loop is left: by the [return] inside it, or by its
    condition turning false. *)
Inductive LoopExit :=
| Returned (o : Outcome.t)
| Exhausted (retryCount : nat) (startTime : option Z).

Section MakeRequest.
Variable cfg : TestConfig.
Variable net : Endpoint.
Variables userId requestId : Z.
Variable requestStartTime : Z.

(** The [while (retryCount <= MAX_RETRIES)] loop; [fuel] bounds the
    number of iterations. [None] when the fuel runs out. *)
Fixpoint retry_loop (fuel : nat) (retryCount : nat) (startTime : option Z)
  : Eff (option LoopExit) :=
  if (retryCount <=? MAX_RETRIES cfg)%nat then
    match fuel with
    | O => ret None
    | S fuel' =>
      startTime <- Date_now ;;
      response <- http_get net (ENDPOINT cfg) ;;
      now <- Date_now ;;
      let responseTime := now - startTime in
      requestsPerSecond_add 1 [] ;;
      let success := check response request_checks in
      if success then
        let backend := backendOf response in
        let requestData :=
          RequestData.mk requestStartTime userId requestId backend responseTime
            (StatusCode (Response.status response)) retryCount true in
        push_requests requestData ;;
        push_responseTimes responseTime ;;
        push_backends backend ;;
        push_retries retryCount ;;
        push_timestamps requestStartTime ;;
        backendDistribution_add 1 [("backend", backend)] ;;
        responseTimeTrend_add responseTime [] ;;
        let bucket := getResponseTimeBucket responseTime in
        responseTimeBuckets_add 1 [("bucket", bucket)] ;;
        ret (Some (Returned
               (Outcome.mk true responseTime backend retryCount
                  (StatusCode (Response.status response)))))
      else
        let retryCount := S retryCount in
        retryCounter_add 1 [] ;;
        (if (retryCount <=? MAX_RETRIES cfg)%nat
         then sleep (backoffTime retryCount / 1000)
         else ret tt) ;;
        retry_loop fuel' retryCount (Some startTime)
    end
  else ret (Some (Exhausted retryCount startTime)).

(** The code after the loop. [startTime] is [undefined] only if the loop
    body never ran; the subtraction has no integer value then. The loop is
    left this way with [retryCount > MAX_RETRIES] only, so
    [retryCount - 1] is a natural number. *)
Definition store_failure (retryCount : nat) (startTime : option Z)
  : Eff (option Outcome.t) :=
  match startTime with
  | None => ret None
  | Some startTime =>
    now1 <- Date_now ;;
    let failedRequestData :=
      RequestData.mk requestStartTime userId requestId "error"
        (now1 - startTime) StatusFailed (retryCount - 1) false in
    push_requests failedRequestData ;;
    now2 <- Date_now ;;
    push_responseTimes (now2 - startTime) ;;
    push_backends "error" ;;
    push_retries (retryCount - 1) ;;
    push_timestamps requestStartTime ;;
    errorRate_add 1 [] ;;
    now3 <- Date_now ;;
    ret (Some (Outcome.mk false (now3 - startTime) "error"
                 (MAX_RETRIES cfg) StatusFailed))
  end.
End MakeRequest.

(** [makeRequest(userId, requestId)]. The loop is given one unit of fuel
    per allowed attempt. *)
Definition makeRequest (cfg : TestConfig) (net : Endpoint) (userId requestId : Z)
  : Eff (option Outcome.t) :=
  requestStartTime <- Date_now ;;
  exit <- retry_loop cfg net userId requestId requestStartTime
            (S (MAX_RETRIES cfg)) 0 None ;;
  match exit with
  | None => ret None
  | Some (Returned o) => ret (Some o)
  | Some (Exhausted retryCount startTime) =>
    store_failure cfg userId requestId requestStartTime retryCount startTime
  end.

(** The requests one virtual user issues, one per iteration id, in order.
    (The think-time sleeps of the default function only move the clock.) *)
Fixpoint iterations (cfg : TestConfig) (net : Endpoint) (userId : Z)
    (requestIds : list Z) : Eff (option (list Outcome.t)) :=
  match requestIds with
  | [] => ret (Some [])
  | requestId :: rest =>
    r <- makeRequest cfg net userId requestId ;;
    match r with
    | None => ret None
    | Some o =>
      rs <- iterations cfg net userId rest ;;
      ret (option_map (cons o) rs)
    end
  end.

(** ** [generateEnhancedHtmlReport]: the series behind the charts *)

Record Charts := {
  successfulRequests : list RequestData.t;
  failedRequests : list RequestData.t;
  backendCounts : gmap string nat;
  responseTimeHistogram : gmap string nat;
  retryDistribution : gmap nat nat }.

(** [counts[key] = (counts[key] || 0) + 1], for a key that is not the
    name of a property inherited from [Object.prototype] (see
    [object_prototype_names]); the map holds the own properties. *)
Definition count_up `{Countable K} (counts : gmap K nat) (key : K) : gmap K nat :=
  <[key := (default 0 (counts !! key) + 1)%nat]> counts.

(** The object literal [responseTimeHistogram] starts from. *)
Definition emptyHistogram : gmap string nat :=
  <["0-100ms" := 0%nat]> (<["100-200ms" := 0%nat]> (<["200-500ms" := 0%nat]>
  (<["500-1000ms" := 0%nat]> (<["1000-2000ms" := 0%nat]>
  (<["2000-5000ms" := 0%nat]> (<["5000ms+" := 0%nat]> ∅)))))).

(** [responseTimeHistogram[bucket]++]. The bucket is always one of the
    keys of the literal (lemma [bucket_is_histogram_key]), so the case of
    a missing property does not arise. *)
Definition histogram_step (h : gmap string nat) (rt : Z) : gmap string nat :=
  let bucket := getResponseTimeBucket rt in
  alter S bucket h.

(** The series the function derives from [rawData]; its other argument,
    the k6 summary object, only feeds the markup. *)
Definition generateEnhancedHtmlReport (rawData : RawData.t) : Charts :=
  {| successfulRequests := filter (fun r => RequestData.success r = true)
                             (RawData.requests rawData);
     failedRequests := filter (fun r => RequestData.success r = false)
                         (RawData.requests rawData);
     backendCounts := fold_left count_up (RawData.backends rawData) ∅;
     responseTimeHistogram :=
       fold_left histogram_step (RawData.responseTimes rawData) emptyHistogram;
     retryDistribution := fold_left count_up (RawData.retries rawData) ∅ |}.

(** Sum of the values of a chart series. *)
Definition series_total `{Countable K} (m : gmap K nat) : nat :=
  map_fold (fun _ c acc => (c + acc)%nat) 0%nat m.

(** ** [handleSummary] *)

(** The fields of k6's summary object the function reads. *)
Record SummaryData := {
  http_reqs_count : float;
  http_reqs_rate : float;
  http_req_failed_rate : float;
  http_req_duration_avg : float;
  http_req_duration_p95 : float;
  http_req_duration_p99 : float;
  vus_max_value : float;
  retries_count : option float }.

(** The four branches of the performance assessment. *)
Inductive Assessment := EXCELLENT | GOOD | ACCEPTABLE | NEEDS_WORK.

(** [a >= b] on JavaScript numbers. *)
Definition geb (a b : float) : bool := PrimFloat.leb b a.

(** The [if / else if] chain of the assessment. *)
Definition assess (successRate p95ResponseTime : float) : Assessment :=
  if geb successRate 95 && PrimFloat.ltb p95ResponseTime 1000 then EXCELLENT
  else if geb successRate 90 && PrimFloat.ltb p95ResponseTime 2000 then GOOD
  else if geb successRate 80 && PrimFloat.ltb p95ResponseTime 5000 then ACCEPTABLE
  else NEEDS_WORK.

(** What [handleSummary] computes and prints; the file map it returns is
    presentation and is not modelled. *)
Record Summary := {
  totalRequests : float;
  failedRequestCount : float;
  successRate : float;
  avgResponseTime : float;
  p95ResponseTime : float;
  p99ResponseTime : float;
  maxVUs : float;
  requestsPerSec : float;
  totalRetries : float;
  htmlReport : Charts;
  assessment : Assessment }.

Definition handleSummary (data : SummaryData) (rawData : RawData.t) : Summary :=
  let totalRequests := http_reqs_count data in
  let failedRequests := (http_req_failed_rate data * totalRequests)%float in
  let successRate := (((totalRequests - failedRequests) / totalRequests) * 100)%float in
  let avgResponseTime := http_req_duration_avg data in
  let p95ResponseTime := http_req_duration_p95 data in
  let p99ResponseTime := http_req_duration_p99 data in
  let maxVUs := vus_max_value data in
  let requestsPerSec := http_reqs_rate data in
  let totalRetries := match retries_count data with Some c => c | None => 0%float end in
  let htmlReport := generateEnhancedHtmlReport rawData in
  {| totalRequests := totalRequests;
     failedRequestCount := failedRequests;
     successRate := successRate;
     avgResponseTime := avgResponseTime;
     p95ResponseTime := p95ResponseTime;
     p99ResponseTime := p99ResponseTime;
     maxVUs := maxVUs;
     requestsPerSec := requestsPerSec;
     totalRetries := totalRetries;
     htmlReport := htmlReport;
     assessment := assess successRate p95ResponseTime |}.

(** ** Reference definitions that follow the specification's wording *)

(** Backoff Policy of the specification:
    [delay(n) = min(baseDelay * 2^(n-1), capDelay)]. *)
Definition delay_spec (baseDelay capDelay : Z) (retryIndex : nat) : Z :=
  Z.min (baseDelay * 2 ^ (Z.of_nat retryIndex - 1)) capDelay.

(** The bins of the specification: boundaries 100, 200, 500, 1000, 2000,
    5000 ms and an open-ended top bin; each carries the label the script
    gives it. *)
Record Bin := { label : string; lower : Z; upper : option Z }.

Definition bins : list Bin :=
  [ Build_Bin "0-100ms" 0 (Some 100);
    Build_Bin "100-200ms" 100 (Some 200);
    Build_Bin "200-500ms" 200 (Some 500);
    Build_Bin "500-1000ms" 500 (Some 1000);
    Build_Bin "1000-2000ms" 1000 (Some 2000);
    Build_Bin "2000-5000ms" 2000 (Some 5000);
    Build_Bin "5000ms+" 5000 None ].

Definition in_bin (t : Z) (b : Bin) : Prop :=
  lower b <= t /\ match upper b with Some u => t < u | None => True end.

(** "The first present value among an ordered list of header lookups",
    with a fallback when none is present. *)
Fixpoint first_present (h : gmap string string) (keys : list string)
    (fallback : string) : string :=
  match keys with
  | [] => fallback
  | k :: rest =>
    match h !! k with
    | Some v => v
    | None => first_present h rest fallback
    end
  end.

(** The same lookup when an empty header value counts as absent. *)
Fixpoint first_nonempty (h : gmap string string) (keys : list string)
    (fallback : string) : string :=
  match keys with
  | [] => fallback
  | k :: rest =>
    match h !! k with
    | Some v => if decide (v = "") then first_nonempty h rest fallback else v
    | None => first_nonempty h rest fallback
    end
  end.

Definition backend_headers : list string := ["X-Backend-Server"; "X-Server"; "Server"].

Definition sumZ (l : list Z) : Z := fold_right Z.add 0 l.

(** ** The retry loop as a step relation *)

Section LoopSemantics.
Variable cfg : TestConfig.
Variable net : Endpoint.
Variables userId requestId requestStartTime : Z.

Local Abbreviation MAX := (MAX_RETRIES cfg).

(** Does the n-th physical call pass the checks? *)
Definition call_ok (n : nat) : bool := check (answer (net n)) request_checks.

(** The object returned when call [n] succeeds after [rc] retries. *)
Definition success_outcome (rc n : nat) : Outcome.t :=
  Outcome.mk true (latency (net n)) (backendOf (answer (net n))) rc
    (StatusCode (Response.status (answer (net n)))).

Definition success_data (rc n : nat) : RequestData.t :=
  RequestData.mk requestStartTime userId requestId (backendOf (answer (net n)))
    (latency (net n)) (StatusCode (Response.status (answer (net n)))) rc true.

(** Appending one stored request to the five arrays. *)
Definition store (d : RawData.t) (r : RequestData.t) : RawData.t :=
  RawData.mk (RawData.requests d ++ [r])
    (RawData.responseTimes d ++ [RequestData.responseTime r])
    (RawData.backends d ++ [RequestData.backend r])
    (RawData.retries d ++ [RequestData.retries r])
    (RawData.timestamps d ++ [RequestData.timestamp r])
    (RawData.userSessions d).

(** The world after a successful attempt made in world [w]. *)
Definition success_world (rc : nat) (w : World) : World :=
  let n := calls w in
  let m := metrics w in
  mkWorld (clock w + latency (net n)) (S n) (slept w)
    (store (rawData w) (success_data rc n))
    (Metrics.mk (Metrics.errorRate m)
       (Metrics.responseTimeTrend m ++ [Build_Sample (latency (net n)) []])
       (Metrics.backendDistribution m
          ++ [Build_Sample 1 [("backend", backendOf (answer (net n)))]])
       (Metrics.retryCounter m) (Metrics.activeUsers m)
       (Metrics.requestsPerSecond m ++ [Build_Sample 1 []])
       (Metrics.responseTimeBuckets m
          ++ [Build_Sample 1 [("bucket", getResponseTimeBucket (latency (net n)))]])).

(** The world after a failed attempt made in world [w] with [rc] retries
    behind it, the backoff sleep included when one is due. *)
Definition failed_world (rc : nat) (w : World) : World :=
  let n := calls w in
  let m := metrics w in
  let m' :=
    Metrics.mk (Metrics.errorRate m) (Metrics.responseTimeTrend m)
      (Metrics.backendDistribution m)
      (Metrics.retryCounter m ++ [Build_Sample 1 []]) (Metrics.activeUsers m)
      (Metrics.requestsPerSecond m ++ [Build_Sample 1 []])
      (Metrics.responseTimeBuckets m) in
  if (S rc <=? MAX)%nat then
    mkWorld (clock w + latency (net n) + 1000 * (backoffTime (S rc) / 1000))
      (S n) (slept w ++ [backoffTime (S rc) / 1000]) (rawData w) m'
  else
    mkWorld (clock w + latency (net n)) (S n) (slept w) (rawData w) m'.

Inductive Run : nat -> option Z -> World -> LoopExit -> World -> Prop :=
| Run_exhausted rc st w :
    (MAX < rc)%nat ->
    Run rc st w (Exhausted rc st) w
| Run_success rc st w :
    (rc <= MAX)%nat ->
    call_ok (calls w) = true ->
    Run rc st w (Returned (success_outcome rc (calls w))) (success_world rc w)
| Run_retry rc st w e w' :
    (rc <= MAX)%nat ->
    call_ok (calls w) = false ->
    Run (S rc) (Some (clock w)) (failed_world rc w) e w' ->
    Run rc st w e w'.

(** The backoff sleeps (in seconds) that follow failed attempts
    [rc], ..., [rc + k - 1]. *)
Definition waits (rc k : nat) : list Z :=
  map (fun n => backoffTime n / 1000) (seq (S rc) k).

(** The durations of the physical calls [c], ..., [c + n - 1]. *)
Definition latencies (c n : nat) : list Z :=
  map (fun i => latency (net i)) (seq c n).

(** A run that ends in the [return] of the loop: [k] failed attempts, each
    followed by its backoff sleep, then one attempt that passes. *)
Definition returned_post (rc : nat) (w : World) (o : Outcome.t) (w' : World)
    (k : nat) : Prop :=
  (rc + k <= MAX)%nat /\
  (forall i, (i < k)%nat -> call_ok (calls w + i)%nat = false) /\
  call_ok (calls w + k)%nat = true /\
  o = success_outcome (rc + k)%nat (calls w + k)%nat /\
  calls w' = S (calls w + k)%nat /\
  slept w' = slept w ++ waits rc k /\
  clock w' = clock w + sumZ (latencies (calls w) (S k)) + 1000 * sumZ (waits rc k) /\
  rawData w' = store (rawData w) (success_data (rc + k)%nat (calls w + k)%nat) /\
  Metrics.responseTimeTrend (metrics w')
  = Metrics.responseTimeTrend (metrics w)
      ++ [Build_Sample (latency (net (calls w + k)%nat)) []] /\
  Metrics.responseTimeBuckets (metrics w')
  = Metrics.responseTimeBuckets (metrics w)
      ++ [Build_Sample 1
            [("bucket", getResponseTimeBucket (latency (net (calls w + k)%nat)))]] /\
  Metrics.errorRate (metrics w') = Metrics.errorRate (metrics w).

(** A run that falls out of the loop: every allowed attempt failed. After
    the last one no sleep follows, so the clock still reads the end of
    that attempt. *)
Definition exhausted_post (rc : nat) (w : World) (rc' : nat) (st' : option Z)
    (w' : World) : Prop :=
  let k := (MAX - rc)%nat in
  rc' = S MAX /\
  (forall i, (i <= k)%nat -> call_ok (calls w + i)%nat = false) /\
  calls w' = S (calls w + k)%nat /\
  slept w' = slept w ++ waits rc k /\
  clock w' = clock w + sumZ (latencies (calls w) (S k)) + 1000 * sumZ (waits rc k) /\
  st' = Some (clock w' - latency (net (calls w + k)%nat)) /\
  rawData w' = rawData w /\
  Metrics.responseTimeTrend (metrics w') = Metrics.responseTimeTrend (metrics w) /\
  Metrics.responseTimeBuckets (metrics w') = Metrics.responseTimeBuckets (metrics w) /\
  Metrics.errorRate (metrics w') = Metrics.errorRate (metrics w).

End LoopSemantics.

(** ** What one call of [makeRequest] does *)

Section RequestSemantics.
Variable cfg : TestConfig.
Variable net : Endpoint.
Variables userId requestId : Z.

Local Abbreviation MAX := (MAX_RETRIES cfg).

(** The record stored for a logical request that ran out of retries; its
    response time is the one of the last physical call. *)
Definition failure_data (requestStartTime : Z) (n : nat) : RequestData.t :=
  RequestData.mk requestStartTime userId requestId "error" (latency (net n))
    StatusFailed MAX false.

Definition failure_outcome (n : nat) : Outcome.t :=
  Outcome.mk false (latency (net n)) "error" MAX StatusFailed.

(** The call succeeded on retry [k]. *)
Definition succeeded (w : World) (o : Outcome.t) (w' : World) (k : nat) : Prop :=
  returned_post cfg net userId requestId (clock w) 0 w o w' k.

(** Every allowed attempt of the call failed. *)
Definition gave_up (w : World) (o : Outcome.t) (w' : World) : Prop :=
  o = failure_outcome (calls w + MAX) /\
  (forall i, (i <= MAX)%nat -> call_ok net (calls w + i) = false) /\
  calls w' = S (calls w + MAX) /\
  slept w' = slept w ++ waits 0 MAX /\
  clock w' = clock w + sumZ (latencies net (calls w) (S MAX))
             + 1000 * sumZ (waits 0 MAX) /\
  rawData w' = store (rawData w) (failure_data (clock w) (calls w + MAX)) /\
  Metrics.responseTimeTrend (metrics w') = Metrics.responseTimeTrend (metrics w) /\
  Metrics.responseTimeBuckets (metrics w')
  = Metrics.responseTimeBuckets (metrics w) /\
  Metrics.errorRate (metrics w')
  = Metrics.errorRate (metrics w) ++ [Build_Sample 1 []].

End RequestSemantics.

(** ** Runs and inputs used in the statements *)

(** How much of [rawData] a run of requests leaves behind. *)
Definition grown_by (n : nat) (d d' : RawData.t) : Prop :=
  length (RawData.requests d') = (length (RawData.requests d) + n)%nat /\
  length (RawData.responseTimes d') = (length (RawData.responseTimes d) + n)%nat /\
  length (RawData.backends d') = (length (RawData.backends d) + n)%nat /\
  length (RawData.retries d') = (length (RawData.retries d) + n)%nat /\
  length (RawData.timestamps d') = (length (RawData.timestamps d) + n)%nat /\
  RawData.size d' = (RawData.size d + 5 * n)%nat.

(** The sample [responseTimeBuckets.add(1, { bucket })] that goes with a
    sample of the response-time trend. *)
Definition bucket_sample (s : Sample) : Sample :=
  Build_Sample 1 [("bucket", getResponseTimeBucket (value s))].

(** The samples of a counter that carry the tag [{ bucket: b }], and the
    sum of these counts over the seven buckets. *)
Definition bucket_count (b : string) (samples : list Sample) : nat :=
  length (filter (fun s => tags s = [("bucket", b)]) samples).

Definition counter_total (samples : list Sample) : nat :=
  sum_list (map (fun b => bucket_count (label b) samples) bins).

(** Scenario B: every call answers 500 after 30 ms. *)
Definition always_500 : Endpoint :=
  fun _ => Build_Exchange (Response.mk 500 ∅) 30.

(** Scenario C: two failures (100 ms and 70 ms), then a 200 from "nginx"
    after 50 ms. *)
Definition fail_fail_ok : Endpoint :=
  fun n =>
    match n with
    | 0%nat => Build_Exchange (Response.mk 500 ∅) 100
    | 1%nat => Build_Exchange (Response.mk 503 ∅) 70
    | _ => Build_Exchange (Response.mk 200 {[ "Server" := "nginx" ]}) 50
    end.

(** An endpoint that answers 200 and names itself "error" in its
    [Server] header. *)
Definition says_error : Endpoint :=
  fun _ => Build_Exchange (Response.mk 200 {[ "Server" := "error" ]}) 10.

(** An endpoint that answers 200 with an empty [X-Backend-Server] header
    and [Server: nginx]. *)
Definition empty_primary : Endpoint :=
  fun _ =>
    Build_Exchange
      (Response.mk 200 (<["X-Backend-Server" := ""]> {[ "Server" := "nginx" ]}))
      10.

(** One failure that takes 100 ms, then a 200 after 50 ms. *)
Definition fail_then_ok : Endpoint :=
  fun n =>
    match n with
    | 0%nat => Build_Exchange (Response.mk 500 ∅) 100
    | _ => Build_Exchange (Response.mk 200 ∅) 50
    end.

(** A summary object of a run that made no request. *)
Definition no_requests : SummaryData :=
  {| http_reqs_count := 0;
     http_reqs_rate := 0;
     http_req_failed_rate := 0;
     http_req_duration_avg := 0;
     http_req_duration_p95 := 0;
     http_req_duration_p99 := 0;
     vus_max_value := 0;
     retries_count := None |}.

(** ** Notions for whole runs and for the report *)

(** [n] untagged samples of value 1. *)
Definition ones (n : nat) : list Sample := repeat (Build_Sample 1 []) n.

(** How often a value occurs in an array. *)
Definition occurrences `{EqDecision A} (a : A) (l : list A) : nat :=
  length (filter (fun x => x = a) l).

(** The successful and the failed outcomes among those of a run. *)
Definition successes (os : list Outcome.t) : nat :=
  length (filter (fun o => Outcome.success o = true) os).

Definition failures (os : list Outcome.t) : nat :=
  length (filter (fun o => Outcome.success o = false) os).

(** A stored request read as a returned object. (For a failed request
    the response time read this way is the returned one only because two
    readings of the clock with nothing in between agree; the statements
    use [mirrors], which leaves it out.) *)
Definition outcome_of (r : RequestData.t) : Outcome.t :=
  Outcome.mk (RequestData.success r) (RequestData.responseTime r)
    (RequestData.backend r) (RequestData.retries r) (RequestData.status r).

(** The side arrays of [rawData] go with the array [requests] entry by
    entry: [backends], [retries] and [timestamps] repeat the fields of
    its entries, and [responseTimes] has one entry per request, which for
    a successful request is the response time of its entry. (For a failed
    request the entry and the array take their response times from two
    readings of [Date.now()], lines 160 and 167, so nothing is said of
    them.) *)
Definition aligned (d : RawData.t) : Prop :=
  RawData.backends d = map RequestData.backend (RawData.requests d) /\
  RawData.retries d = map RequestData.retries (RawData.requests d) /\
  RawData.timestamps d = map RequestData.timestamp (RawData.requests d) /\
  Forall2 (fun r rt => RequestData.success r = true ->
                       RequestData.responseTime r = rt)
    (RawData.requests d) (RawData.responseTimes d).

(** A stored request and the object returned for it: they agree on
    success, backend, retries and status, and, for a success, on the
    response time. (For a failure the two response times are separate
    readings of [Date.now()], lines 160 and 175.) *)
Definition mirrors (r : RequestData.t) (o : Outcome.t) : Prop :=
  RequestData.success r = Outcome.success o /\
  RequestData.backend r = Outcome.backend o /\
  RequestData.retries r = Outcome.retries o /\
  RequestData.status r = Outcome.status o /\
  (Outcome.success o = true ->
   RequestData.responseTime r = Outcome.responseTime o).

(** Three calls that answer 500 after 30 ms, then 200 from "nginx"
    after 40 ms: with [MAX_RETRIES = 2] the first logical request fails
    and the second succeeds at once. *)
Definition first_request_fails : Endpoint :=
  fun n =>
    if (n <? 3)%nat then Build_Exchange (Response.mk 500 ∅) 30
    else Build_Exchange (Response.mk 200 {[ "Server" := "nginx" ]}) 40.

(** A [rawData] with three backends and their retry counts recorded. *)
Definition backends_seen : RawData.t :=
  RawData.mk [] [] ["nginx"; "error"; "nginx"] [0%nat; 2%nat; 0%nat] [] [].

(** The property names an object literal [{}] inherits from
    [Object.prototype]. For such a key [counts[key] || 0] reads the
    inherited value, not 0, and [count_up] does not describe the code. *)
Definition object_prototype_names : list string :=
  [ "constructor"; "__proto__"; "hasOwnProperty"; "isPrototypeOf";
    "propertyIsEnumerable"; "toString"; "toLocaleString"; "valueOf";
    "__defineGetter__"; "__defineSetter__"; "__lookupGetter__";
    "__lookupSetter__" ].

(** The calls of [makeRequest] one virtual user makes for a list of
    iteration ids, as a relation between the worlds before and after. *)
Inductive RunOf (cfg : TestConfig) (net : Endpoint) (userId : Z)
  : World -> list Z -> list Outcome.t -> World -> Prop :=
| RunOf_nil w : RunOf cfg net userId w [] [] w
| RunOf_cons w requestId o w1 rest os w' :
    makeRequest cfg net userId requestId w = (Some o, w1) ->
    RunOf cfg net userId w1 rest os w' ->
    RunOf cfg net userId w (requestId :: rest) (o :: os) w'.

(** What a run of the loop hands to the remaining metrics:
    one sample for [rps] per physical call, one for [retries] per failed
    call, one for [backend_requests] when it returns. *)
Definition counters_post (w : World) (e : LoopExit) (w' : World) : Prop :=
  let returned := match e with Returned _ => 1%nat | Exhausted _ _ => 0%nat end in
  (calls w + returned <= calls w')%nat /\
  Metrics.requestsPerSecond (metrics w')
  = Metrics.requestsPerSecond (metrics w) ++ ones (calls w' - calls w) /\
  Metrics.retryCounter (metrics w')
  = Metrics.retryCounter (metrics w) ++ ones (calls w' - calls w - returned) /\
  Metrics.backendDistribution (metrics w')
  = Metrics.backendDistribution (metrics w)
    ++ match e with
       | Returned o => [Build_Sample 1 [("backend", Outcome.backend o)]]
       | Exhausted _ _ => []
       end /\
  Metrics.activeUsers (metrics w') = Metrics.activeUsers (metrics w).

(** The milliseconds slept in the backoffs of [k] retries. *)
Definition total_backoff (k : nat) : Z :=
  match k with
  | O => 0
  | S _ => 2000 * Z.of_nat k - 1000
  end.

(** ** The default function: one iteration of a virtual user *)






Section DefaultFunction.
Variable cfg : TestConfig.
Variable net : Endpoint.
(** The values [Math.random()] returns, in the order of the draws. *)
Variable random : nat -> float.
Variable nap : float -> Z.



End DefaultFunction.

(** The four tiers of the assessment, from worst to best. *)
Definition tier_rank (a : Assessment) : nat :=
  match a with
  | NEEDS_WORK => 0
  | ACCEPTABLE => 1
  | GOOD => 2
  | EXCELLENT => 3
  end.

(** Two summary objects of 1000 requests: 10% failed with a 95th
    percentile of 1500 ms, and 2% failed with one of 900 ms. *)
Definition some_failures : SummaryData :=
  {| http_reqs_count := 1000;
     http_reqs_rate := 10;
     http_req_failed_rate := 0.1;
     http_req_duration_avg := 100;
     http_req_duration_p95 := 1500;
     http_req_duration_p99 := 3000;
     vus_max_value := 50;
     retries_count := None |}.

Definition few_failures : SummaryData :=
  {| http_reqs_count := 1000;
     http_reqs_rate := 10;
     http_req_failed_rate := 0.02;
     http_req_duration_avg := 100;
     http_req_duration_p95 := 900;
     http_req_duration_p99 := 3000;
     vus_max_value := 50;
     retries_count := None |}.

(** * Properties *)

(** ** The retry loop *)

Section LoopFacts.
Variable cfg : TestConfig.
Variable net : Endpoint.
Variables userId requestId requestStartTime : Z.

Local Abbreviation MAX := (MAX_RETRIES cfg).
Local Abbreviation loop := (retry_loop cfg net userId requestId requestStartTime).
Local Abbreviation run := (Run cfg net userId requestId requestStartTime).
Local Abbreviation passed :=
  (success_world net userId requestId requestStartTime).
Local Abbreviation failed := (failed_world cfg net).

Local Arguments Nat.leb : simpl never.

Lemma sumZ_app l1 l2 : sumZ (l1 ++ l2) = sumZ l1 + sumZ l2.
Proof. induction l1 as [| x l1 IH]; simpl; lia. Qed.

(** The three equations of the loop. *)
Lemma retry_loop_exhausted fuel rc st w :
  (MAX < rc)%nat -> loop fuel rc st w = (Some (Exhausted rc st), w).
Proof.
  intros H. destruct fuel; simpl;
    (destruct (Nat.leb_spec rc MAX); [lia | reflexivity]).
Qed.

Lemma retry_loop_success fuel rc st w :
  (rc <= MAX)%nat -> call_ok net (calls w) = true ->
  loop (S fuel) rc st w
  = (Some (Returned (success_outcome net rc (calls w))), passed rc w).
Proof.
  intros H Hok. simpl. destruct (Nat.leb_spec rc MAX); [| lia].
  unfold call_ok in Hok.
  unfold bind, Date_now, http_get, requestsPerSecond_add, modify_metrics; simpl.
  rewrite Hok.
  unfold success_outcome, success_world, success_data, store; simpl.
  replace (clock w + latency (net (calls w)) - clock w)
    with (latency (net (calls w))) by lia.
  reflexivity.
Qed.

Lemma retry_loop_retry fuel rc st w :
  (rc <= MAX)%nat -> call_ok net (calls w) = false ->
  loop (S fuel) rc st w = loop fuel (S rc) (Some (clock w)) (failed rc w).
Proof.
  intros H Hok. simpl. destruct (Nat.leb_spec rc MAX); [| lia].
  unfold call_ok in Hok.
  unfold bind at 1 2 3 4. unfold Date_now at 1 2, http_get,
    requestsPerSecond_add, modify_metrics at 1; simpl.
  rewrite Hok. unfold failed_world.
  unfold bind, retryCounter_add, modify_metrics; simpl.
  destruct (Nat.leb_spec (S rc) MAX); reflexivity.
Qed.

(** Soundness: whatever the loop returns is a run of the relation. *)
Lemma retry_loop_Run fuel : forall rc st w e w',
  loop fuel rc st w = (Some e, w') -> run rc st w e w'.
Proof.
  induction fuel as [| fuel IH]; intros rc st w e w' Hl.
  - destruct (Nat.le_gt_cases rc MAX) as [Hle | Hgt].
    + simpl in Hl. destruct (Nat.leb_spec rc MAX); [| lia]. discriminate.
    + rewrite retry_loop_exhausted in Hl by lia.
      inversion Hl; subst. now constructor.
  - destruct (Nat.le_gt_cases rc MAX) as [Hle | Hgt].
    + destruct (call_ok net (calls w)) eqn:Hok.
      * rewrite retry_loop_success in Hl by assumption.
        inversion Hl; subst. now constructor.
      * rewrite retry_loop_retry in Hl by assumption.
        apply Run_retry; auto.
    + rewrite retry_loop_exhausted in Hl by lia.
      inversion Hl; subst. now constructor.
Qed.

(** Termination: one unit of fuel per remaining attempt is enough. *)
Lemma retry_loop_total fuel : forall rc st w,
  (S MAX - rc <= fuel)%nat ->
  exists e w', loop fuel rc st w = (Some e, w').
Proof.
  induction fuel as [| fuel IH]; intros rc st w Hf.
  - rewrite retry_loop_exhausted by lia. eauto.
  - destruct (Nat.le_gt_cases rc MAX) as [Hle | Hgt].
    + destruct (call_ok net (calls w)) eqn:Hok.
      * rewrite retry_loop_success by assumption. eauto.
      * rewrite retry_loop_retry by assumption. apply IH. lia.
    + rewrite retry_loop_exhausted by lia. eauto.
Qed.

Lemma waits_S rc k :
  waits rc (S k) = backoffTime (S rc) / 1000 :: waits (S rc) k.
Proof. reflexivity. Qed.

Lemma latencies_S c n :
  latencies net c (S n) = latency (net c) :: latencies net (S c) n.
Proof. reflexivity. Qed.

Lemma failed_world_calls rc w : calls (failed rc w) = S (calls w).
Proof. unfold failed_world. destruct (S rc <=? MAX)%nat; reflexivity. Qed.

Lemma failed_world_rawData rc w : rawData (failed rc w) = rawData w.
Proof. unfold failed_world. destruct (S rc <=? MAX)%nat; reflexivity. Qed.

Lemma failed_world_sleeps rc w :
  (S rc <= MAX)%nat ->
  slept (failed rc w) = slept w ++ [backoffTime (S rc) / 1000] /\
  clock (failed rc w)
  = clock w + latency (net (calls w)) + 1000 * (backoffTime (S rc) / 1000).
Proof.
  intros H. unfold failed_world.
  destruct (Nat.leb_spec (S rc) MAX); [split; reflexivity | lia].
Qed.

Lemma failed_world_last rc w :
  (MAX < S rc)%nat ->
  slept (failed rc w) = slept w /\
  clock (failed rc w) = clock w + latency (net (calls w)).
Proof.
  intros H. unfold failed_world.
  destruct (Nat.leb_spec (S rc) MAX); [lia | split; reflexivity].
Qed.

Lemma failed_world_metrics rc w :
  Metrics.responseTimeTrend (metrics (failed rc w))
  = Metrics.responseTimeTrend (metrics w) /\
  Metrics.responseTimeBuckets (metrics (failed rc w))
  = Metrics.responseTimeBuckets (metrics w) /\
  Metrics.errorRate (metrics (failed rc w)) = Metrics.errorRate (metrics w).
Proof. unfold failed_world. destruct (S rc <=? MAX)%nat; auto. Qed.

Lemma Run_returned rc st w o w' :
  run rc st w (Returned o) w' ->
  exists k, returned_post cfg net userId requestId requestStartTime rc w o w' k.
Proof.
  intros H. remember (Returned o) as e eqn:He.
  induction H as [rc st w Hgt | rc st w Hle Hok | rc st w e w' Hle Hok Hrun IH].
  - discriminate.
  - inversion He; subst o. exists 0%nat. unfold returned_post.
    rewrite !Nat.add_0_r. simpl.
    repeat split; try reflexivity; try lia; try assumption.
    unfold waits; simpl. now rewrite app_nil_r.
  - destruct (IH He) as (k & Hk). exists (S k).
    unfold returned_post in *.
    destruct Hk as (Hb & Hfail & Hsucc & Ho & Hcalls & Hslept & Hclock & Hraw
                    & Htrend & Hbuckets & Herr).
    rewrite failed_world_calls in *. rewrite failed_world_rawData in Hraw.
    destruct (failed_world_metrics rc w) as (Et & Eb & Ee).
    rewrite Et in Htrend. rewrite Eb in Hbuckets. rewrite Ee in Herr.
    destruct (failed_world_sleeps rc w) as (Es & Ec); [lia |].
    rewrite Es in Hslept. rewrite Ec in Hclock.
    replace (calls w + S k)%nat with (S (calls w) + k)%nat by lia.
    replace (rc + S k)%nat with (S rc + k)%nat by lia.
    repeat split; try assumption; try lia.
    + intros i Hi. destruct i as [| i].
      * now rewrite Nat.add_0_r.
      * replace (calls w + S i)%nat with (S (calls w) + i)%nat by lia.
        apply Hfail. lia.
    + rewrite Hslept, <- app_assoc. reflexivity.
    + rewrite Hclock, waits_S, (latencies_S (calls w)).
      change (sumZ (?x :: ?l)) with (x + sumZ l). lia.
Qed.

Lemma Run_exhausted_inv rc st w rc' st' w' :
  run rc st w (Exhausted rc' st') w' -> (rc <= MAX)%nat ->
  exhausted_post cfg net rc w rc' st' w'.
Proof.
  intros H. remember (Exhausted rc' st') as e eqn:He.
  induction H as [rc st w Hgt | rc st w Hle Hok | rc st w e w' Hle Hok Hrun IH];
    intros Hrc.
  - lia.
  - discriminate.
  - destruct (Nat.eq_dec rc MAX) as [-> | Hne].
    + (* the last allowed attempt *)
      inversion Hrun; subst; try lia.
      match goal with H : Exhausted _ _ = Exhausted _ _ |- _ =>
        inversion H; subst end.
      unfold exhausted_post. rewrite Nat.sub_diag, !Nat.add_0_r.
      rewrite failed_world_calls, failed_world_rawData.
      destruct (failed_world_metrics MAX w) as (Et & Eb & Ee).
      destruct (failed_world_last MAX w) as (Es & Ec); [lia |].
      rewrite Es, Ec. unfold waits, latencies. cbn [seq map sumZ fold_right].
      repeat split; try assumption; try reflexivity; try lia.
      * intros i Hi. replace i with 0%nat by lia. now rewrite Nat.add_0_r.
      * now rewrite app_nil_r.
      * f_equal. lia.
    + specialize (IH He ltac:(lia)). unfold exhausted_post in *.
      replace (MAX - rc)%nat with (S (MAX - S rc)) by lia.
      set (k := (MAX - S rc)%nat) in *.
      destruct IH as (Hrc' & Hfail & Hcalls & Hslept & Hclock & Hst & Hraw
                      & Htrend & Hbuckets & Herr).
      rewrite failed_world_calls in *. rewrite failed_world_rawData in Hraw.
      destruct (failed_world_metrics rc w) as (Et & Eb & Ee).
      rewrite Et in Htrend. rewrite Eb in Hbuckets. rewrite Ee in Herr.
      destruct (failed_world_sleeps rc w) as (Es & Ec); [lia |].
      rewrite Es in Hslept. rewrite Ec in Hclock.
      replace (calls w + S k)%nat with (S (calls w) + k)%nat by lia.
      repeat split; try assumption; try lia.
      * intros i Hi. destruct i as [| i].
        -- now rewrite Nat.add_0_r.
        -- replace (calls w + S i)%nat with (S (calls w) + i)%nat by lia.
           apply Hfail. lia.
      * rewrite Hslept, <- app_assoc. reflexivity.
      * rewrite Hclock, waits_S, (latencies_S (calls w)).
        change (sumZ (?x :: ?l)) with (x + sumZ l). lia.
Qed.

End LoopFacts.

(** ** One call of [makeRequest] *)

Section MakeRequestFacts.
Variable cfg : TestConfig.
Variable net : Endpoint.
Variables userId requestId : Z.

Local Abbreviation MAX := (MAX_RETRIES cfg).
Local Abbreviation success := (succeeded cfg net userId requestId).
Local Abbreviation failure := (gave_up cfg net userId requestId).

(** [makeRequest] always returns, in one of the two ways. *)
Lemma makeRequest_cases (w : World) :
  exists o w', makeRequest cfg net userId requestId w = (Some o, w') /\
    ((exists k, success w o w' k) \/ failure w o w').
Proof.
  unfold makeRequest, bind at 1. unfold Date_now at 1. unfold bind at 1.
  destruct (retry_loop_total cfg net userId requestId (clock w) (S MAX) 0 None w)
    as (e & w1 & Hloop); [lia |].
  rewrite Hloop. apply retry_loop_Run in Hloop.
  destruct e as [o | rc' st'].
  - exists o, w1. split; [reflexivity |]. left.
    now apply Run_returned in Hloop.
  - apply Run_exhausted_inv in Hloop; [| lia].
    unfold exhausted_post in Hloop. rewrite Nat.sub_0_r in Hloop.
    destruct Hloop as (-> & Hfail & Hcalls & Hslept & Hclock & -> & Hraw
                       & Htrend & Hbuckets & Herr).
    unfold store_failure, bind, Date_now, push_requests, push_responseTimes,
      push_backends, push_retries, push_timestamps, errorRate_add,
      modify_rawData, modify_metrics; simpl.
    replace (clock w1 - (clock w1 - latency (net (calls w + MAX)%nat)))
      with (latency (net (calls w + MAX)%nat)) by lia.
    eexists _, _. split; [reflexivity |]. right.
    unfold gave_up, failure_outcome, failure_data, store; simpl.
    rewrite Nat.sub_0_r, Hraw, Htrend, Hbuckets, Herr.
    repeat split; assumption.
Qed.

Lemma makeRequest_total (w : World) :
  exists o w', makeRequest cfg net userId requestId w = (Some o, w').
Proof. destruct (makeRequest_cases w) as (o & w' & H & _); eauto. Qed.

(** Inversion form: read the facts off a given result. *)
Lemma makeRequest_inv (w : World) (o : Outcome.t) (w' : World) :
  makeRequest cfg net userId requestId w = (Some o, w') ->
  (exists k, success w o w' k) \/ failure w o w'.
Proof.
  intros H. destruct (makeRequest_cases w) as (o1 & w1 & H1 & Hc).
  rewrite H1 in H. inversion H; subst. exact Hc.
Qed.

Lemma succeeded_success w o w' k : success w o w' k -> Outcome.success o = true.
Proof. intros (_ & _ & _ & -> & _). reflexivity. Qed.

Lemma gave_up_success w o w' : failure w o w' -> Outcome.success o = false.
Proof. intros (-> & _). reflexivity. Qed.

End MakeRequestFacts.

(** ** Latency buckets *)

Lemma getResponseTimeBucket_cases (t : Z) :
  (t < 100 /\ getResponseTimeBucket t = "0-100ms") \/
  (100 <= t < 200 /\ getResponseTimeBucket t = "100-200ms") \/
  (200 <= t < 500 /\ getResponseTimeBucket t = "200-500ms") \/
  (500 <= t < 1000 /\ getResponseTimeBucket t = "500-1000ms") \/
  (1000 <= t < 2000 /\ getResponseTimeBucket t = "1000-2000ms") \/
  (2000 <= t < 5000 /\ getResponseTimeBucket t = "2000-5000ms") \/
  (5000 <= t /\ getResponseTimeBucket t = "5000ms+").
Proof.
  unfold getResponseTimeBucket.
  repeat match goal with
         | |- context [ (?a <? ?b) ] => destruct (Z.ltb_spec a b)
         end; lia || tauto.
Qed.

Lemma bins_labels_NoDup : NoDup (map label bins).
Proof. apply NoDup_ListNoDup. repeat constructor; simpl; intuition discriminate. Qed.

(** C6. [getResponseTimeBucket] is a total function that partitions the
    non-negative latencies: a latency [t >= 0] lies in the bin whose label
    the function returns, it lies in no other bin of the table
    (boundaries 100, 200, 500, 1000, 2000, 5000 and an open top bin), and
    the labels of the table are pairwise distinct. *)
Theorem getResponseTimeBucket_partition (t : Z) :
  0 <= t ->
  (exists b, In b bins /\ in_bin t b /\ getResponseTimeBucket t = label b) /\
  (forall b, In b bins -> (in_bin t b <-> getResponseTimeBucket t = label b)) /\
  (forall b b', In b bins -> In b' bins -> in_bin t b -> in_bin t b' -> b = b') /\
  NoDup (map label bins).
Proof.
  intros Ht.
  assert (Hiff : forall b, In b bins ->
                   (in_bin t b <-> getResponseTimeBucket t = label b)).
  { intros b Hb. unfold bins in Hb. simpl in Hb.
    destruct (getResponseTimeBucket_cases t)
      as [[H E] | [[H E] | [[H E] | [[H E] | [[H E] | [[H E] | [H E]]]]]]];
      rewrite E;
      repeat (destruct Hb as [<- | Hb]; [unfold in_bin; simpl; split;
                [intros [? ?]; first [reflexivity | lia]
                | intros ?; first [discriminate | lia] ] | ]);
      contradiction. }
  split; [| split; [exact Hiff | split; [| exact bins_labels_NoDup]]].
  - destruct (getResponseTimeBucket_cases t)
      as [[H E] | [[H E] | [[H E] | [[H E] | [[H E] | [[H E] | [H E]]]]]]];
      rewrite E.
    + exists (Build_Bin "0-100ms" 0 (Some 100)).
      unfold in_bin, bins; simpl; intuition lia.
    + exists (Build_Bin "100-200ms" 100 (Some 200)).
      unfold in_bin, bins; simpl; intuition lia.
    + exists (Build_Bin "200-500ms" 200 (Some 500)).
      unfold in_bin, bins; simpl; intuition lia.
    + exists (Build_Bin "500-1000ms" 500 (Some 1000)).
      unfold in_bin, bins; simpl; intuition lia.
    + exists (Build_Bin "1000-2000ms" 1000 (Some 2000)).
      unfold in_bin, bins; simpl; intuition lia.
    + exists (Build_Bin "2000-5000ms" 2000 (Some 5000)).
      unfold in_bin, bins; simpl; intuition lia.
    + exists (Build_Bin "5000ms+" 5000 None).
      unfold in_bin, bins; simpl; intuition lia.
  - intros b b' Hb Hb' Hin Hin'.
    apply Hiff in Hin; [| assumption]. apply Hiff in Hin'; [| assumption].
    rewrite Hin in Hin'. clear - Hb Hb' Hin'.
    unfold bins in *. simpl in Hb, Hb'.
    repeat (destruct Hb as [<- | Hb]; [| ]);
      try contradiction;
      repeat (destruct Hb' as [<- | Hb']; [| ]);
      try contradiction; first [reflexivity | discriminate].
Qed.

Lemma getResponseTimeBucket_partition_witness :
  0 <= 150 /\ getResponseTimeBucket 150 = "100-200ms" /\
  in_bin 150 (Build_Bin "100-200ms" 100 (Some 200)).
Proof.
  split; [lia |]. split; [reflexivity |].
  apply (proj1 (proj2 (getResponseTimeBucket_partition 150 ltac:(lia)))).
  - unfold bins; simpl; auto.
  - reflexivity.
Defined.

(** ** Backoff policy *)

Lemma backoffTime_1 : backoffTime 1 = 1000.
Proof. reflexivity. Qed.

Lemma backoffTime_ge_2 (n : nat) : (2 <= n)%nat -> backoffTime n = 2000.
Proof.
  intros H. unfold backoffTime.
  assert (2 ^ 1 <= 2 ^ (Z.of_nat n - 1)) by (apply Z.pow_le_mono_r; lia).
  change (2 ^ 1) with 2 in *. lia.
Qed.

Lemma backoffTime_whole_seconds (n : nat) :
  (1 <= n)%nat -> 1000 * (backoffTime n / 1000) = backoffTime n.
Proof.
  intros H. destruct (Nat.eq_dec n 1%nat) as [-> | Hn].
  - reflexivity.
  - rewrite backoffTime_ge_2 by lia. reflexivity.
Qed.

Lemma backoffTime_mono (n m : nat) :
  (1 <= n)%nat -> (n <= m)%nat -> backoffTime n <= backoffTime m.
Proof.
  intros H1 H2. destruct (Nat.eq_dec n 1%nat) as [-> | Hn].
  - destruct (Nat.eq_dec m 1%nat) as [-> | Hm]; [lia |].
    rewrite (backoffTime_ge_2 m) by lia. rewrite backoffTime_1. lia.
  - rewrite !backoffTime_ge_2 by lia. lia.
Qed.

(** The sleeps of one call: one per retry, for retry indices 1, 2, ... *)
Lemma makeRequest_waits cfg net userId requestId w o w' :
  makeRequest cfg net userId requestId w = (Some o, w') ->
  slept w' = slept w ++ waits 0 (Outcome.retries o).
Proof.
  intros H. apply makeRequest_inv in H. destruct H as [(k & Hk) | Hg].
  - destruct Hk as (_ & _ & _ & -> & _ & Hs & _). exact Hs.
  - destruct Hg as (-> & _ & _ & Hs & _). exact Hs.
Qed.

(** C5. Before retry [n] (for [1 <= n], so in particular for
    [1 <= n <= MAX_RETRIES]) the loop sleeps
    [min(1000 * 2^(n-1), 2000)] milliseconds: the seconds handed to
    [sleep] by a call of [makeRequest] are these delays divided by 1000,
    for the retry indices 1 up to the number of retries made, the division
    is exact, and the delay never decreases with the retry index. *)
Theorem backoff_delay cfg net userId requestId w o w' (n m : nat) :
  makeRequest cfg net userId requestId w = (Some o, w') ->
  (1 <= n)%nat -> (n <= m)%nat ->
  slept w' = slept w
             ++ map (fun i => delay_spec 1000 2000 i / 1000)
                    (seq 1 (Outcome.retries o)) /\
  backoffTime n = delay_spec 1000 2000 n /\
  1000 * (backoffTime n / 1000) = Z.min (1000 * 2 ^ (Z.of_nat n - 1)) 2000 /\
  backoffTime n <= backoffTime m.
Proof.
  intros H Hn Hm. split; [| split; [| split]].
  - apply makeRequest_waits in H. exact H.
  - reflexivity.
  - rewrite backoffTime_whole_seconds by assumption. reflexivity.
  - now apply backoffTime_mono.
Qed.

(** ** Scenarios of the retry loop *)

Lemma call_ok_status net n :
  call_ok net n = true <-> Response.status (answer (net n)) = 200.
Proof.
  unfold call_ok, check, request_checks; simpl.
  destruct (Z.eqb_spec (Response.status (answer (net n))) 200) as [E | E].
  - rewrite E. simpl. tauto.
  - simpl. split; [discriminate | tauto].
Qed.

Lemma call_ok_false net n :
  Response.status (answer (net n)) <> 200 -> call_ok net n = false.
Proof.
  intros H. destruct (call_ok net n) eqn:E; [| reflexivity].
  apply call_ok_status in E. contradiction.
Qed.

(** C4. If every physical call within the budget answers with a status
    other than 200, one call of [makeRequest] makes exactly
    [MAX_RETRIES + 1] physical calls and returns a failed outcome. If, with
    [MAX_RETRIES = 2], the first two physical calls fail and the third
    answers 200, the outcome is a success with [retries = 2], the sleeps
    of the call are [delay(1)] and [delay(2)], and the time slept during
    the call is [delay(1) + delay(2)]. *)
Theorem retry_scenarios cfg net userId requestId w :
  ((forall i, (i <= MAX_RETRIES cfg)%nat ->
      Response.status (answer (net (calls w + i)%nat)) <> 200) ->
   exists o w',
     makeRequest cfg net userId requestId w = (Some o, w') /\
     calls w' = (calls w + (MAX_RETRIES cfg + 1))%nat /\
     Outcome.success o = false /\
     Outcome.retries o = MAX_RETRIES cfg /\
     Outcome.backend o = "error") /\
  (MAX_RETRIES cfg = 2%nat ->
   Response.status (answer (net (calls w))) <> 200 ->
   Response.status (answer (net (calls w + 1)%nat)) <> 200 ->
   Response.status (answer (net (calls w + 2)%nat)) = 200 ->
   exists o w',
     makeRequest cfg net userId requestId w = (Some o, w') /\
     Outcome.success o = true /\
     Outcome.retries o = 2%nat /\
     slept w' = slept w ++ [delay_spec 1000 2000 1 / 1000;
                            delay_spec 1000 2000 2 / 1000] /\
     1000 * (sumZ (slept w') - sumZ (slept w))
     = delay_spec 1000 2000 1 + delay_spec 1000 2000 2).
Proof.
  split.
  - intros Hfail.
    destruct (makeRequest_cases cfg net userId requestId w)
      as (o & w' & Hm & [(k & Hk) | Hg]).
    + destruct Hk as (Hb & _ & Hok & _).
      apply call_ok_status in Hok. exfalso. apply (Hfail k); [lia | exact Hok].
    + exists o, w'. destruct Hg as (-> & _ & Hc & _).
      repeat split; try assumption; try reflexivity. lia.
  - intros Hmax H0 H1 H2.
    destruct (makeRequest_cases cfg net userId requestId w)
      as (o & w' & Hm & [(k & Hk) | Hg]).
    + destruct Hk as (Hb & Hf & Hok & -> & _ & Hs & _).
      apply call_ok_status in Hok.
      assert (k = 2%nat) as ->.
      { destruct k as [| [| [| k]]]; [ | | reflexivity | lia].
        - rewrite Nat.add_0_r in Hok. contradiction.
        - contradiction. }
      exists (success_outcome net (0 + 2) (calls w + 2)), w'.
      repeat split; try assumption; try reflexivity.
      rewrite Hs, sumZ_app.
      change (sumZ (waits 0 2)) with 3. change (delay_spec 1000 2000 1) with 1000.
      change (delay_spec 1000 2000 2) with 2000. lia.
    + destruct Hg as (_ & Hf & _). exfalso.
      specialize (Hf 2%nat ltac:(lia)).
      apply call_ok_status in H2. congruence.
Qed.

Lemma backoff_delay_witness :
  exists o w',
    makeRequest TEST_CONFIG always_500 1 0 initialWorld = (Some o, w') /\
    (1 <= 1)%nat /\ (1 <= 2)%nat /\
    slept w' = slept initialWorld
               ++ map (fun i => delay_spec 1000 2000 i / 1000)
                      (seq 1 (Outcome.retries o)) /\
    1000 * (backoffTime 1 / 1000) = Z.min (1000 * 2 ^ (Z.of_nat 1 - 1)) 2000 /\
    backoffTime 1 <= backoffTime 2.
Proof.
  destruct (makeRequest TEST_CONFIG always_500 1 0 initialWorld)
    as [[o |] w'] eqn:E; [| vm_compute in E; discriminate].
  exists o, w'. split; [reflexivity |].
  destruct (backoff_delay _ _ _ _ _ _ _ 1 2 E ltac:(lia) ltac:(lia))
    as (Hs & _ & Hd & Hm).
  split; [lia |]. split; [lia |]. split; [exact Hs |].
  split; [exact Hd | exact Hm].
Defined.

Lemma retry_scenarios_witness :
  (exists o w',
     makeRequest TEST_CONFIG always_500 7 0 initialWorld = (Some o, w') /\
     calls w' = 3%nat /\ Outcome.success o = false) /\
  (exists o w',
     makeRequest TEST_CONFIG fail_fail_ok 7 0 initialWorld = (Some o, w') /\
     Outcome.success o = true /\ Outcome.retries o = 2%nat /\
     slept w' = [1; 2]).
Proof.
  destruct (retry_scenarios TEST_CONFIG always_500 7 0 initialWorld) as [HB _].
  destruct (retry_scenarios TEST_CONFIG fail_fail_ok 7 0 initialWorld) as [_ HC].
  split.
  - destruct HB as (o & w' & H & Hc & Hs & _).
    + intros i _. simpl. lia.
    + exists o, w'. auto.
  - destruct HC as (o & w' & H & Hs & Hr & Hsl & _).
    + reflexivity.
    + simpl. lia.
    + simpl. lia.
    + reflexivity.
    + exists o, w'. auto.
Defined.

(** ** The shape of an outcome *)

(** C2 as stated fails: a 200 response whose [Server] header reads
    "error" yields a successful outcome with backend "error". *)
Lemma outcome_invariant_counterexample :
  ~ (forall o w',
       makeRequest TEST_CONFIG says_error 1 0 initialWorld = (Some o, w') ->
       (Outcome.success o = true ->
        (Outcome.retries o <= MAX_RETRIES TEST_CONFIG)%nat /\
        Outcome.backend o <> "error") /\
       (Outcome.success o = false ->
        Outcome.retries o = MAX_RETRIES TEST_CONFIG /\
        Outcome.backend o = "error")).
Proof.
  intros H.
  destruct (makeRequest TEST_CONFIG says_error 1 0 initialWorld)
    as [[o |] w'] eqn:E; vm_compute in E; [| discriminate].
  specialize (H o w' eq_refl). destruct H as [H _].
  inversion E; subst o. destruct H as [_ H]; [reflexivity |].
  apply H. reflexivity.
Qed.

(** C2, amended. For every outcome of [makeRequest]: a success has
    [retries <= MAX_RETRIES] and its backend is the one read from the
    headers of the response that passed, so it differs from "error" unless
    one of the three headers itself carries that value; a failure has
    [retries = MAX_RETRIES] and backend "error". *)
Theorem outcome_invariant cfg net userId requestId w o w' :
  makeRequest cfg net userId requestId w = (Some o, w') ->
  (Outcome.success o = true ->
   (Outcome.retries o <= MAX_RETRIES cfg)%nat /\
   Outcome.backend o
   = backendOf (answer (net (calls w + Outcome.retries o)%nat)) /\
   ((forall key, In key backend_headers ->
       Response.headers (answer (net (calls w + Outcome.retries o)%nat)) !! key
       <> Some "error") ->
    Outcome.backend o <> "error")) /\
  (Outcome.success o = false ->
   Outcome.retries o = MAX_RETRIES cfg /\ Outcome.backend o = "error").
Proof.
  intros H. apply makeRequest_inv in H. destruct H as [(k & Hk) | Hg].
  - destruct Hk as (Hb & _ & _ & -> & _). simpl. split; [| discriminate].
    intros _. split; [lia |]. split; [reflexivity |].
    intros Hh. unfold backendOf, js_or.
    pose proof (Hh "X-Backend-Server" ltac:(simpl; auto)) as H1.
    pose proof (Hh "X-Server" ltac:(simpl; auto)) as H2.
    pose proof (Hh "Server" ltac:(simpl; auto)) as H3.
    repeat match goal with
           | |- context [ match ?h !! ?k with _ => _ end ] =>
               destruct (h !! k) eqn:?
           | |- context [ decide ?P ] => destruct (decide P)
           end; try congruence; discriminate.
  - destruct Hg as (-> & _). simpl. split; [discriminate | auto].
Qed.

Lemma outcome_invariant_witness :
  exists o w',
    makeRequest TEST_CONFIG fail_fail_ok 1 0 initialWorld = (Some o, w') /\
    Outcome.success o = true /\
    (Outcome.retries o <= 2)%nat /\ Outcome.backend o = "nginx".
Proof.
  destruct (makeRequest TEST_CONFIG fail_fail_ok 1 0 initialWorld)
    as [[o |] w'] eqn:E; vm_compute in E; [| discriminate].
  exists o, w'. split; [reflexivity |].
  destruct (outcome_invariant TEST_CONFIG fail_fail_ok 1 0 initialWorld o w')
    as [Hs _].
  - vm_compute. exact E.
  - inversion E; subst o. destruct (Hs eq_refl) as (Hr & Hb & _).
    split; [reflexivity |]. split; [exact Hr | reflexivity].
Defined.

(** ** Backend identification *)

Lemma js_or_first_nonempty h keys fallback :
  fold_right (fun k acc => js_or (h !! k) acc) fallback keys
  = first_nonempty h keys fallback.
Proof.
  induction keys as [| k keys IH]; simpl; [reflexivity |].
  rewrite IH. unfold js_or. destruct (h !! k); reflexivity.
Qed.

Lemma backendOf_first_nonempty (r : Response.t) :
  backendOf r = first_nonempty (Response.headers r) backend_headers "unknown".
Proof.
  unfold backendOf, backend_headers. rewrite <- js_or_first_nonempty. reflexivity.
Qed.

Lemma first_nonempty_present h keys fallback :
  (forall k v, In k keys -> h !! k = Some v -> v <> "") ->
  first_nonempty h keys fallback = first_present h keys fallback.
Proof.
  induction keys as [| k keys IH]; intros Hne; simpl; [reflexivity |].
  destruct (h !! k) as [v |] eqn:E.
  - destruct (decide (v = "")) as [Hv | Hv]; [| reflexivity].
    exfalso. eapply Hne; [left; reflexivity | exact E | exact Hv].
  - apply IH. intros k' v' Hin. apply Hne. now right.
Qed.

(** C10 as stated fails: a header that is present with an empty value is
    skipped by [||]; the first present value is the empty string of
    [X-Backend-Server], the backend reported is the one of [Server]. *)
Lemma backend_first_present_counterexample :
  ~ (forall o w',
       makeRequest TEST_CONFIG empty_primary 1 0 initialWorld = (Some o, w') ->
       Outcome.success o = true ->
       Outcome.backend o
       = first_present (Response.headers (answer (empty_primary 0%nat)))
           backend_headers "unknown").
Proof.
  intros H.
  destruct (makeRequest TEST_CONFIG empty_primary 1 0 initialWorld)
    as [[o |] w'] eqn:E; vm_compute in E; [| discriminate].
  specialize (H o w' eq_refl). inversion E; subst o.
  specialize (H eq_refl). vm_compute in H. discriminate.
Qed.

(** C10, amended. For every successful outcome the backend is the first
    value that is present and not the empty string among the lookups
    [X-Backend-Server], [X-Server], [Server] on the response that passed,
    and "unknown" when there is none; when no looked-up header is empty
    this is the first present value; "unknown" differs from "error". *)
Theorem backend_first_nonempty cfg net userId requestId w o w' :
  makeRequest cfg net userId requestId w = (Some o, w') ->
  Outcome.success o = true ->
  let h := Response.headers (answer (net (calls w + Outcome.retries o)%nat)) in
  Outcome.backend o = first_nonempty h backend_headers "unknown" /\
  ((forall k v, In k backend_headers -> h !! k = Some v -> v <> "") ->
   Outcome.backend o = first_present h backend_headers "unknown") /\
  ((forall k, In k backend_headers -> h !! k = None \/ h !! k = Some "") ->
   Outcome.backend o = "unknown") /\
  "unknown" <> "error".
Proof.
  intros H Hs h. apply makeRequest_inv in H. destruct H as [(k & Hk) | Hg].
  - destruct Hk as (_ & _ & _ & -> & _). simpl in *. subst h.
    rewrite backendOf_first_nonempty.
    split; [reflexivity |]. split; [| split; [| discriminate]].
    + intros Hne. now apply first_nonempty_present.
    + intros Habs. unfold backend_headers, first_nonempty.
      destruct (Habs "X-Backend-Server" ltac:(simpl; auto)) as [-> | ->];
      destruct (Habs "X-Server" ltac:(simpl; auto)) as [-> | ->];
      destruct (Habs "Server" ltac:(simpl; auto)) as [-> | ->];
      reflexivity.
  - apply gave_up_success in Hg. congruence.
Qed.

Lemma backend_first_nonempty_witness :
  exists o w',
    makeRequest TEST_CONFIG empty_primary 1 0 initialWorld = (Some o, w') /\
    Outcome.success o = true /\
    Outcome.backend o
    = first_nonempty (Response.headers (answer (empty_primary 0%nat)))
        backend_headers "unknown" /\
    Outcome.backend o = "nginx".
Proof.
  destruct (makeRequest TEST_CONFIG empty_primary 1 0 initialWorld)
    as [[o |] w'] eqn:E; vm_compute in E; [| discriminate].
  exists o, w'. split; [reflexivity |].
  assert (Hs : Outcome.success o = true) by (inversion E; reflexivity).
  split; [exact Hs |].
  destruct (backend_first_nonempty TEST_CONFIG empty_primary 1 0 initialWorld o w')
    as (Hb & _); [vm_compute; exact E | exact Hs |].
  inversion E; subst o. split; [exact Hb | reflexivity].
Defined.

(** ** The reported response time *)

Lemma latencies_snoc net c n :
  sumZ (latencies net c (S n))
  = sumZ (latencies net c n) + latency (net (c + n)%nat).
Proof.
  unfold latencies. rewrite seq_S, map_app, sumZ_app. simpl. lia.
Qed.

(** C8 as stated fails: after one failed attempt (100 ms) and its backoff
    (1000 ms) a success that took 50 ms is reported with 50 ms, while 1150
    ms passed since the first attempt started. *)
Lemma responseTime_wall_clock_counterexample :
  ~ (forall o w',
       makeRequest TEST_CONFIG fail_then_ok 1 0 initialWorld = (Some o, w') ->
       Outcome.responseTime o = clock w' - clock initialWorld).
Proof.
  intros H.
  destruct (makeRequest TEST_CONFIG fail_then_ok 1 0 initialWorld)
    as [[o |] w'] eqn:E; vm_compute in E; [| discriminate].
  specialize (H o w' eq_refl). inversion E; subst o w'.
  vm_compute in H. discriminate.
Qed.

(** C8, amended. For every outcome, failed or successful, the reported
    response time is the duration of the last physical attempt alone. The
    time from the start of the first attempt to the resolution is that
    duration plus the durations of the earlier attempts and the backoff
    sleeps; the two agree when no retry was made. *)
Theorem responseTime_last_attempt cfg net userId requestId w o w' :
  makeRequest cfg net userId requestId w = (Some o, w') ->
  let k := Outcome.retries o in
  Outcome.responseTime o = latency (net (calls w + k)%nat) /\
  calls w' = S (calls w + k) /\
  clock w' - clock w
  = Outcome.responseTime o + sumZ (latencies net (calls w) k)
    + 1000 * sumZ (waits 0 k) /\
  (k = 0%nat -> Outcome.responseTime o = clock w' - clock w).
Proof.
  intros H k.
  assert (Hmain :
    Outcome.responseTime o = latency (net (calls w + k)%nat) /\
    calls w' = S (calls w + k) /\
    clock w' = clock w + sumZ (latencies net (calls w) (S k))
               + 1000 * sumZ (waits 0 k)).
  { apply makeRequest_inv in H. destruct H as [(j & Hj) | Hg].
    - destruct Hj as (_ & _ & _ & Ho & Hc & _ & Hclk & _).
      subst k. rewrite Ho. simpl. auto.
    - destruct Hg as (Ho & _ & Hc & _ & Hclk & _).
      subst k. rewrite Ho. simpl. auto. }
  destruct Hmain as (Hrt & Hc & Hclk).
  rewrite latencies_snoc in Hclk.
  split; [exact Hrt |]. split; [exact Hc |]. split; [lia |].
  intros Hk. rewrite Hk in *. unfold waits, latencies in Hclk. simpl in Hclk. lia.
Qed.

Lemma responseTime_last_attempt_witness :
  exists o w',
    makeRequest TEST_CONFIG fail_then_ok 1 0 initialWorld = (Some o, w') /\
    Outcome.responseTime o = 50 /\
    clock w' - clock initialWorld = 50 + 100 + 1000 * 1.
Proof.
  destruct (makeRequest TEST_CONFIG fail_then_ok 1 0 initialWorld)
    as [[o |] w'] eqn:E; vm_compute in E; [| discriminate].
  exists o, w'. split; [reflexivity |].
  destruct (responseTime_last_attempt TEST_CONFIG fail_then_ok 1 0 initialWorld o w')
    as (Hrt & _ & Hclk & _); [vm_compute; exact E |].
  inversion E; subst o w'. split; [exact Hrt | exact Hclk].
Defined.

(** ** Growth of [rawData] *)

Lemma makeRequest_store cfg net userId requestId w o w' :
  makeRequest cfg net userId requestId w = (Some o, w') ->
  exists r, rawData w' = store (rawData w) r /\
            RequestData.success r = Outcome.success o /\
            RequestData.responseTime r = Outcome.responseTime o.
Proof.
  intros H. apply makeRequest_inv in H. destruct H as [(k & Hk) | Hg].
  - destruct Hk as (_ & _ & _ & -> & _ & _ & _ & Hraw & _).
    eexists. split; [exact Hraw |]. split; reflexivity.
  - destruct Hg as (-> & _ & _ & _ & _ & Hraw & _).
    eexists. split; [exact Hraw |]. split; reflexivity.
Qed.

Lemma store_size d r : RawData.size (store d r) = (RawData.size d + 5)%nat.
Proof. unfold RawData.size, store; simpl. rewrite !length_app; simpl. lia. Qed.

Lemma grown_by_store d r : grown_by 1 d (store d r).
Proof.
  unfold grown_by. rewrite store_size. unfold store; simpl.
  rewrite !length_app; simpl. repeat split; lia.
Qed.

Lemma grown_by_trans n m d1 d2 d3 :
  grown_by n d1 d2 -> grown_by m d2 d3 -> grown_by (n + m) d1 d3.
Proof.
  unfold grown_by.
  intros (? & ? & ? & ? & ? & ?) (? & ? & ? & ? & ? & ?).
  repeat split. all: lia.
Qed.

Lemma iterations_grow cfg net userId requestIds : forall w,
  exists os w',
    iterations cfg net userId requestIds w = (Some os, w') /\
    length os = length requestIds /\
    grown_by (length requestIds) (rawData w) (rawData w').
Proof.
  induction requestIds as [| requestId rest IH]; intros w.
  - exists [], w. split; [reflexivity |]. split; [reflexivity |].
    unfold grown_by. simpl. repeat split; lia.
  - destruct (makeRequest_total cfg net userId requestId w) as (o & w1 & Hm).
    destruct (IH w1) as (os & w2 & Hi & Hlen & Hg).
    exists (o :: os), w2. simpl. unfold bind at 1. rewrite Hm.
    unfold bind at 1. rewrite Hi. split; [reflexivity |].
    split; [simpl; lia |].
    apply makeRequest_store in Hm. destruct Hm as (r & Hr & _).
    change (S (length rest)) with (1 + length rest)%nat.
    eapply grown_by_trans; [| exact Hg]. rewrite Hr. apply grown_by_store.
Qed.

(** C1, amended. The state is not bounded: every call of [makeRequest],
    failed or successful, appends one entry to each of the arrays
    [requests], [responseTimes], [backends], [retries] and [timestamps] of
    [rawData]; after [n] requests each of them holds [n] more entries and
    the object [5 * n] more cells. *)
Theorem rawData_grows cfg net userId requestIds w :
  exists os w',
    iterations cfg net userId requestIds w = (Some os, w') /\
    length os = length requestIds /\
    length (RawData.requests (rawData w'))
    = (length (RawData.requests (rawData w)) + length requestIds)%nat /\
    length (RawData.responseTimes (rawData w'))
    = (length (RawData.responseTimes (rawData w)) + length requestIds)%nat /\
    length (RawData.backends (rawData w'))
    = (length (RawData.backends (rawData w)) + length requestIds)%nat /\
    length (RawData.retries (rawData w'))
    = (length (RawData.retries (rawData w)) + length requestIds)%nat /\
    length (RawData.timestamps (rawData w'))
    = (length (RawData.timestamps (rawData w)) + length requestIds)%nat /\
    RawData.size (rawData w')
    = (RawData.size (rawData w) + 5 * length requestIds)%nat.
Proof.
  destruct (iterations_grow cfg net userId requestIds w)
    as (os & w' & H & Hlen & Hg).
  exists os, w'. split; [exact H |]. split; [exact Hlen | exact Hg].
Qed.

(** C1 as stated fails: no constant bounds the size of [rawData] over all
    runs; [B + 1] requests leave more than [B] cells behind. *)
Lemma rawData_bounded_counterexample :
  ~ (exists bound : nat, forall requestIds : list Z,
       (RawData.size
          (rawData (snd (iterations TEST_CONFIG always_500 1 requestIds
                           initialWorld)))
        <= bound)%nat).
Proof.
  intros (bound & H). specialize (H (repeat 0 (S bound))).
  destruct (iterations_grow TEST_CONFIG always_500 1 (repeat 0 (S bound))
              initialWorld) as (os & w' & Hi & _ & Hg).
  rewrite Hi in H. simpl snd in H.
  destruct Hg as (_ & _ & _ & _ & _ & Hsize).
  rewrite repeat_length in Hsize. lia.
Qed.

(** ** The latency histogram *)

Lemma series_total_alter (h : gmap string nat) k c :
  h !! k = Some c -> series_total (alter S k h) = S (series_total h).
Proof.
  intros Hk. unfold series_total.
  rewrite (map_fold_delete_L _ _ k (S c) (alter S k h)).
  - rewrite (map_fold_delete_L _ _ k c h); [| intros; lia | exact Hk].
    rewrite delete_alter_eq. reflexivity.
  - intros; lia.
  - rewrite lookup_alter_eq, Hk. reflexivity.
Qed.

Lemma bucket_is_histogram_key (rt : Z) :
  is_Some (emptyHistogram !! getResponseTimeBucket rt).
Proof.
  destruct (getResponseTimeBucket_cases rt)
    as [[H E] | [[H E] | [[H E] | [[H E] | [[H E] | [[H E] | [H E]]]]]]];
    rewrite E; vm_compute; eauto.
Qed.

Lemma histogram_step_keys h rt k :
  is_Some (h !! k) -> is_Some (histogram_step h rt !! k).
Proof.
  intros [c Hc]. unfold histogram_step.
  destruct (decide (getResponseTimeBucket rt = k)) as [-> | Hne].
  - rewrite lookup_alter_eq, Hc. simpl. eauto.
  - rewrite lookup_alter_ne by assumption. eauto.
Qed.

Lemma histogram_fold_total (l : list Z) : forall h,
  (forall rt, is_Some (h !! getResponseTimeBucket rt)) ->
  series_total (fold_left histogram_step l h) = (series_total h + length l)%nat.
Proof.
  induction l as [| rt l IH]; intros h Hkeys; simpl; [lia |].
  rewrite IH.
  - destruct (Hkeys rt) as [c Hc]. unfold histogram_step.
    rewrite (series_total_alter _ _ c Hc). lia.
  - intros rt'. apply histogram_step_keys, Hkeys.
Qed.

Lemma bucket_count_cons b x l :
  bucket_count b (x :: l)
  = ((if decide (tags x = [("bucket", b)]) then 1 else 0) + bucket_count b l)%nat.
Proof.
  unfold bucket_count. rewrite filter_cons.
  destruct (decide (tags x = [("bucket", b)])); reflexivity.
Qed.

Lemma sum_list_map_add {A} (f g : A -> nat) (l : list A) :
  sum_list (map (fun a => (f a + g a)%nat) l)
  = (sum_list (map f l) + sum_list (map g l))%nat.
Proof. induction l as [| a l IH]; simpl; lia. Qed.

(** A bucket sample is counted under exactly one of the seven labels. *)
Lemma bucket_sample_counted_once (x : Sample) :
  sum_list
    (map (fun b => if decide (tags (bucket_sample x) = [("bucket", label b)])
                   then 1%nat else 0%nat) bins) = 1%nat.
Proof.
  unfold bucket_sample. cbn [tags].
  destruct (getResponseTimeBucket_cases (value x))
    as [[H E] | [[H E] | [[H E] | [[H E] | [[H E] | [[H E] | [H E]]]]]]];
    rewrite E; reflexivity.
Qed.

Lemma counter_total_bucket_samples (l : list Sample) :
  counter_total (map bucket_sample l) = length l.
Proof.
  induction l as [| x l IH]; [reflexivity |].
  unfold counter_total in *. cbn [map length].
  rewrite (map_ext _ _ (fun b => bucket_count_cons (label b) (bucket_sample x)
                                   (map bucket_sample l))).
  rewrite sum_list_map_add, bucket_sample_counted_once, IH. reflexivity.
Qed.

(** The two k6 metrics of the success path move together. *)
Lemma makeRequest_metrics cfg net userId requestId w o w' :
  makeRequest cfg net userId requestId w = (Some o, w') ->
  exists new,
    Metrics.responseTimeTrend (metrics w')
    = Metrics.responseTimeTrend (metrics w) ++ new /\
    Metrics.responseTimeBuckets (metrics w')
    = Metrics.responseTimeBuckets (metrics w) ++ map bucket_sample new /\
    length new = (if Outcome.success o then 1 else 0)%nat.
Proof.
  intros H. apply makeRequest_inv in H. destruct H as [(k & Hk) | Hg].
  - destruct Hk as (_ & _ & _ & -> & _ & _ & _ & _ & Ht & Hb & _).
    eexists [_]. split; [exact Ht |]. split; [exact Hb | reflexivity].
  - destruct Hg as (-> & _ & _ & _ & _ & _ & Ht & Hb & _).
    exists []. rewrite Ht, Hb, !app_nil_r. auto.
Qed.

Lemma iterations_metrics cfg net userId requestIds : forall w os w',
  iterations cfg net userId requestIds w = (Some os, w') ->
  exists new,
    Metrics.responseTimeTrend (metrics w')
    = Metrics.responseTimeTrend (metrics w) ++ new /\
    Metrics.responseTimeBuckets (metrics w')
    = Metrics.responseTimeBuckets (metrics w) ++ map bucket_sample new /\
    length new = length (filter (fun o => Outcome.success o = true) os).
Proof.
  induction requestIds as [| requestId rest IH]; intros w os w' H.
  - inversion H; subst. exists []. rewrite !app_nil_r. auto.
  - simpl in H. unfold bind at 1 in H.
    destruct (makeRequest_total cfg net userId requestId w) as (o & w1 & Hm).
    rewrite Hm in H. unfold bind at 1 in H.
    destruct (iterations cfg net userId rest w1) as [[os1 |] w2] eqn:Hi;
      simpl in H; [| discriminate].
    inversion H; subst os w'.
    apply makeRequest_metrics in Hm. destruct Hm as (n1 & Ht1 & Hb1 & Hl1).
    destruct (IH _ _ _ Hi) as (n2 & Ht2 & Hb2 & Hl2).
    exists (n1 ++ n2). rewrite Ht2, Hb2, Ht1, Hb1, map_app, <- !app_assoc.
    split; [reflexivity |]. split; [reflexivity |].
    rewrite length_app, Hl1, Hl2, filter_cons.
    destruct (Outcome.success o); simpl.
    + destruct (decide (true = true)); [reflexivity | congruence].
    + destruct (decide (false = true)); [discriminate | reflexivity].
Qed.

(** C9. For every content of [rawData] the counts of the latency
    histogram add up to the number of recorded response times. Every
    logical request of a run, failed or successful, records one response
    time there, so after a run the counts add up to what was there before
    plus the number of requests made. The k6 counter
    [response_time_buckets] receives one sample, tagged with one of the
    seven buckets, for each sample of the trend [response_times], so its
    per-bucket counts add up to the number of latencies recorded in that
    trend. *)
Theorem histogram_counts_all_latencies :
  (forall d : RawData.t,
     series_total (responseTimeHistogram (generateEnhancedHtmlReport d))
     = length (RawData.responseTimes d)) /\
  (forall cfg net userId requestIds w,
     exists os w' new,
       iterations cfg net userId requestIds w = (Some os, w') /\
       length os = length requestIds /\
       series_total
         (responseTimeHistogram (generateEnhancedHtmlReport (rawData w')))
       = (length (RawData.responseTimes (rawData w)) + length os)%nat /\
       Metrics.responseTimeTrend (metrics w')
       = Metrics.responseTimeTrend (metrics w) ++ new /\
       Metrics.responseTimeBuckets (metrics w')
       = Metrics.responseTimeBuckets (metrics w) ++ map bucket_sample new /\
       counter_total (map bucket_sample new) = length new).
Proof.
  assert (Hall : forall d : RawData.t,
            series_total (responseTimeHistogram (generateEnhancedHtmlReport d))
            = length (RawData.responseTimes d)).
  { intros d. unfold generateEnhancedHtmlReport; simpl.
    rewrite histogram_fold_total by apply bucket_is_histogram_key.
    reflexivity. }
  split; [exact Hall |].
  intros cfg net userId requestIds w.
  destruct (iterations_grow cfg net userId requestIds w)
    as (os & w' & H & Hlen & Hg).
  destruct (iterations_metrics _ _ _ _ _ _ _ H) as (new & Ht & Hb & _).
  exists os, w', new. split; [exact H |]. split; [exact Hlen |].
  split; [| split; [exact Ht | split; [exact Hb |]]].
  - rewrite Hall. destruct Hg as (_ & Hrt & _). lia.
  - apply counter_total_bucket_samples.
Qed.

(** ** The summary *)

(** With no request counted, the success rate is [0/0]. *)
Lemma successRate_no_requests (rate : float) :
  (((0 - rate * 0) / 0) * 100)%float = nan.
Proof.
  apply Prim2SF_inj.
  rewrite mul_spec, div_spec, sub_spec, mul_spec.
  destruct (Prim2SF rate) as [s | s | | s m e]; try destruct s; reflexivity.
Qed.

Lemma assess_nan (p95 : float) : assess nan p95 = NEEDS_WORK.
Proof. reflexivity. Qed.

(** C3 as stated fails: with zero requests the success rate that
    [handleSummary] prints is NaN, the percentiles are printed as they
    come, and the run is assessed like any other. *)
Lemma no_data_counterexample :
  PrimFloat.is_nan (successRate (handleSummary no_requests RawData.empty)) = true /\
  p95ResponseTime (handleSummary no_requests RawData.empty) = 0%float /\
  assessment (handleSummary no_requests RawData.empty) = NEEDS_WORK.
Proof. repeat split; reflexivity. Qed.

(** C3, amended. When the request count of the summary object is zero,
    [handleSummary] has no "insufficient data" state: the success rate it
    computes is NaN whatever the failure rate, the latency figures are
    those of the summary object unchanged, and the assessment falls
    through to the last branch. *)
Theorem no_data_gives_nan (data : SummaryData) (rawData : RawData.t) :
  http_reqs_count data = 0%float ->
  successRate (handleSummary data rawData) = nan /\
  avgResponseTime (handleSummary data rawData) = http_req_duration_avg data /\
  p95ResponseTime (handleSummary data rawData) = http_req_duration_p95 data /\
  p99ResponseTime (handleSummary data rawData) = http_req_duration_p99 data /\
  assessment (handleSummary data rawData) = NEEDS_WORK.
Proof.
  intros H. unfold handleSummary; simpl. rewrite H.
  rewrite successRate_no_requests.
  repeat split; try reflexivity.
Qed.

Lemma no_data_gives_nan_witness :
  http_reqs_count no_requests = 0%float /\
  successRate (handleSummary no_requests RawData.empty) = nan /\
  assessment (handleSummary no_requests RawData.empty) = NEEDS_WORK.
Proof.
  split; [reflexivity |].
  destruct (no_data_gives_nan no_requests RawData.empty eq_refl)
    as (Hs & _ & _ & _ & Ha).
  split; [exact Hs | exact Ha].
Defined.

Lemma assess_cases (successRate p95 : float) :
  (assess successRate p95 = EXCELLENT <->
   geb successRate 95 = true /\ PrimFloat.ltb p95 1000 = true) /\
  (assess successRate p95 = GOOD <->
   ~ (geb successRate 95 = true /\ PrimFloat.ltb p95 1000 = true) /\
   geb successRate 90 = true /\ PrimFloat.ltb p95 2000 = true) /\
  (assess successRate p95 = ACCEPTABLE <->
   ~ (geb successRate 95 = true /\ PrimFloat.ltb p95 1000 = true) /\
   ~ (geb successRate 90 = true /\ PrimFloat.ltb p95 2000 = true) /\
   geb successRate 80 = true /\ PrimFloat.ltb p95 5000 = true) /\
  (assess successRate p95 = NEEDS_WORK <->
   ~ (geb successRate 95 = true /\ PrimFloat.ltb p95 1000 = true) /\
   ~ (geb successRate 90 = true /\ PrimFloat.ltb p95 2000 = true) /\
   ~ (geb successRate 80 = true /\ PrimFloat.ltb p95 5000 = true)).
Proof.
  unfold assess.
  destruct (geb successRate 95), (PrimFloat.ltb p95 1000),
    (geb successRate 90), (PrimFloat.ltb p95 2000),
    (geb successRate 80), (PrimFloat.ltb p95 5000); simpl;
    intuition discriminate.
Qed.

(** C7. The assessment is one of four tiers, decided in order by the
    fixed thresholds on the success rate and the 95th percentile of the
    summary object handed in: the success rate is
    [(count - failed_rate * count) / count * 100] of its request count
    and failure rate, the 95th percentile is its [p(95)] of the request
    duration, and the tier is EXCELLENT iff the success rate is at least
    95 and the 95th percentile below 1000; otherwise GOOD iff at least 90
    and below 2000; otherwise ACCEPTABLE iff at least 80 and below 5000;
    otherwise NEEDS_WORK. A run of 10000 requests of which 500 failed,
    with a 95th percentile of 900 ms, is EXCELLENT. *)
Theorem assessment_tiers :
  (forall data rawData,
     let s := handleSummary data rawData in
     let rate :=
       (((http_reqs_count data
          - http_req_failed_rate data * http_reqs_count data)
         / http_reqs_count data) * 100)%float in
     let p95 := http_req_duration_p95 data in
     let excellent := geb rate 95 = true /\ PrimFloat.ltb p95 1000 = true in
     let good := geb rate 90 = true /\ PrimFloat.ltb p95 2000 = true in
     let acceptable := geb rate 80 = true /\ PrimFloat.ltb p95 5000 = true in
     successRate s = rate /\
     p95ResponseTime s = p95 /\
     (assessment s = EXCELLENT <-> excellent) /\
     (assessment s = GOOD <-> ~ excellent /\ good) /\
     (assessment s = ACCEPTABLE <-> ~ excellent /\ ~ good /\ acceptable) /\
     (assessment s = NEEDS_WORK <-> ~ excellent /\ ~ good /\ ~ acceptable)) /\
  (forall rps avg p99 vus retries rawData,
     assessment
       (handleSummary
          {| http_reqs_count := 10000;
             http_reqs_rate := rps;
             http_req_failed_rate := 500 / 10000;
             http_req_duration_avg := avg;
             http_req_duration_p95 := 900;
             http_req_duration_p99 := p99;
             vus_max_value := vus;
             retries_count := retries |}
          rawData)
     = EXCELLENT).
Proof.
  split.
  - intros data rawData. cbv zeta. unfold handleSummary; simpl.
    split; [reflexivity |]. split; [reflexivity |].
    apply assess_cases.
  - intros. reflexivity.
Qed.

(** * Further properties of the script *)

(** ** The k6 samples of one call *)

Section CounterFacts.
Variable cfg : TestConfig.
Variable net : Endpoint.
Variables userId requestId requestStartTime : Z.

Local Abbreviation MAX := (MAX_RETRIES cfg).
Local Abbreviation run := (Run cfg net userId requestId requestStartTime).
Local Abbreviation failed := (failed_world cfg net).

Lemma ones_S n : ones (S n) = Build_Sample 1 [] :: ones n.
Proof. reflexivity. Qed.

Lemma ones_snoc (l : list Sample) n :
  (l ++ [Build_Sample 1 []]) ++ ones n = l ++ ones (S n).
Proof. rewrite <- app_assoc. reflexivity. Qed.

Lemma failed_world_counters rc w :
  Metrics.requestsPerSecond (metrics (failed rc w))
  = Metrics.requestsPerSecond (metrics w) ++ [Build_Sample 1 []] /\
  Metrics.retryCounter (metrics (failed rc w))
  = Metrics.retryCounter (metrics w) ++ [Build_Sample 1 []] /\
  Metrics.backendDistribution (metrics (failed rc w))
  = Metrics.backendDistribution (metrics w) /\
  Metrics.activeUsers (metrics (failed rc w)) = Metrics.activeUsers (metrics w) /\
  calls (failed rc w) = S (calls w).
Proof. unfold failed_world. destruct (S rc <=? MAX)%nat; auto. Qed.

Lemma Run_counters rc st w e w' : run rc st w e w' -> counters_post w e w'.
Proof.
  intros H.
  induction H as [rc st w Hgt | rc st w Hle Hok | rc st w e w' Hle Hok Hrun IH];
    unfold counters_post in *.
  - rewrite Nat.sub_diag. simpl. rewrite !app_nil_r. repeat split; lia.
  - cbn [success_world calls metrics Metrics.requestsPerSecond
         Metrics.retryCounter Metrics.backendDistribution Metrics.activeUsers
         success_outcome Outcome.backend].
    replace (S (calls w) - calls w)%nat with 1%nat by lia.
    simpl. rewrite !app_nil_r. repeat split; lia.
  - destruct (failed_world_counters rc w) as (Er & Ec & Eb & Ea & En).
    destruct IH as (Hc & Hr & Hcnt & Hb & Ha).
    rewrite Er in Hr. rewrite Ec in Hcnt. rewrite Eb in Hb. rewrite Ea in Ha.
    rewrite En in *.
    split; [lia |]. split; [| split; [| split; assumption]].
    + rewrite Hr, ones_snoc. f_equal. f_equal. lia.
    + rewrite Hcnt, ones_snoc. f_equal. f_equal.
      destruct e; lia.
Qed.

End CounterFacts.

Section CallFacts.
Variable cfg : TestConfig.
Variable net : Endpoint.
Variables userId requestId : Z.

Local Abbreviation MAX := (MAX_RETRIES cfg).

(** [makeRequest] is its loop followed, when the loop runs dry, by the
    code that stores the failure. *)
Lemma makeRequest_loop (w : World) :
  exists e w1,
    Run cfg net userId requestId (clock w) 0 None w e w1 /\
    makeRequest cfg net userId requestId w
    = match e with
      | Returned o => (Some o, w1)
      | Exhausted rc st => store_failure cfg userId requestId (clock w) rc st w1
      end.
Proof.
  destruct (retry_loop_total cfg net userId requestId (clock w) (S MAX) 0 None w)
    as (e & w1 & Hloop); [lia |].
  exists e, w1. split; [now apply retry_loop_Run in Hloop |].
  unfold makeRequest, bind at 1. unfold Date_now at 1. unfold bind at 1.
  rewrite Hloop. destruct e; reflexivity.
Qed.

(** The code after the loop touches [rawData] and the [errors] rate only. *)
Lemma store_failure_frame ts rc s w1 :
  exists o w2,
    store_failure cfg userId requestId ts rc (Some s) w1 = (Some o, w2) /\
    Outcome.success o = false /\
    calls w2 = calls w1 /\ clock w2 = clock w1 /\ slept w2 = slept w1 /\
    Metrics.requestsPerSecond (metrics w2) = Metrics.requestsPerSecond (metrics w1) /\
    Metrics.retryCounter (metrics w2) = Metrics.retryCounter (metrics w1) /\
    Metrics.backendDistribution (metrics w2)
    = Metrics.backendDistribution (metrics w1) /\
    Metrics.activeUsers (metrics w2) = Metrics.activeUsers (metrics w1).
Proof.
  unfold store_failure, bind, Date_now, push_requests, push_responseTimes,
    push_backends, push_retries, push_timestamps, errorRate_add,
    modify_rawData, modify_metrics; simpl.
  eexists _, _. split; [reflexivity |]. simpl. repeat split.
Qed.

Lemma makeRequest_samples (w : World) (o : Outcome.t) (w' : World) :
  makeRequest cfg net userId requestId w = (Some o, w') ->
  let failed := if Outcome.success o then 0%nat else 1%nat in
  calls w' = (calls w + Outcome.retries o + 1)%nat /\
  Metrics.requestsPerSecond (metrics w')
  = Metrics.requestsPerSecond (metrics w) ++ ones (Outcome.retries o + 1) /\
  Metrics.retryCounter (metrics w')
  = Metrics.retryCounter (metrics w) ++ ones (Outcome.retries o + failed) /\
  Metrics.backendDistribution (metrics w')
  = Metrics.backendDistribution (metrics w)
    ++ (if Outcome.success o
        then [Build_Sample 1 [("backend", Outcome.backend o)]] else []) /\
  Metrics.activeUsers (metrics w') = Metrics.activeUsers (metrics w).
Proof.
  intros H failed.
  assert (Hcalls : calls w' = (calls w + Outcome.retries o + 1)%nat).
  { apply makeRequest_inv in H. destruct H as [(k & Hk) | Hg].
    - destruct Hk as (_ & _ & _ & -> & Hc & _). simpl. lia.
    - destruct Hg as (-> & _ & Hc & _). simpl. lia. }
  split; [exact Hcalls |].
  destruct (makeRequest_loop w) as (e & w1 & Hrun & Heq).
  rewrite Heq in H. pose proof (Run_counters _ _ _ _ _ _ _ _ _ _ Hrun) as Hcnt.
  unfold counters_post in Hcnt.
  destruct e as [o1 | rc st].
  - inversion H; subst o1 w1.
    assert (Hs : Outcome.success o = true).
    { apply Run_returned in Hrun. destruct Hrun as (k & _ & _ & _ & -> & _).
      reflexivity. }
    subst failed. rewrite Hs.
    destruct Hcnt as (_ & Hr & Hc & Hb & Ha).
    replace (calls w' - calls w)%nat with (Outcome.retries o + 1)%nat in * by lia.
    replace (Outcome.retries o + 1 - 1)%nat with (Outcome.retries o + 0)%nat in Hc
      by lia.
    auto.
  - apply Run_exhausted_inv in Hrun; [| lia].
    destruct Hrun as (_ & _ & _ & _ & _ & -> & _).
    destruct (store_failure_frame (clock w) rc
                (clock w1 - latency (net (calls w + (MAX - 0))%nat)) w1)
      as (o2 & w2 & Hsf & Hs & Hc2 & _ & _ & Er & Ec & Eb & Ea).
    rewrite Hsf in H. inversion H; subst o2 w2.
    subst failed. rewrite Hs. rewrite Er, Ec, Eb, Ea.
    destruct Hcnt as (_ & Hr & Hc & Hb & Ha). rewrite Hc2 in Hcalls.
    replace (calls w1 - calls w)%nat with (Outcome.retries o + 1)%nat in * by lia.
    rewrite Nat.sub_0_r in Hc.
    split; [exact Hr |]. split; [exact Hc |]. split; [exact Hb | exact Ha].
Qed.

End CallFacts.

(** X1. The retry count of an outcome is the index of the first physical
    call of the request that answers 200: the request succeeds exactly
    when one of its [MAX_RETRIES + 1] allowed calls does, every call
    before the one counted by [retries] failed, a successful outcome
    carries status 200, and the two checks together test nothing but
    [status === 200]. *)
Theorem retries_is_first_success cfg net userId requestId w o w' :
  makeRequest cfg net userId requestId w = (Some o, w') ->
  let status_of i := Response.status (answer (net (calls w + i)%nat)) in
  (Outcome.success o = true <->
   exists i, (i <= MAX_RETRIES cfg)%nat /\ status_of i = 200) /\
  (forall i, (i < Outcome.retries o)%nat -> status_of i <> 200) /\
  (Outcome.success o = true ->
   status_of (Outcome.retries o) = 200 /\ Outcome.status o = StatusCode 200) /\
  (Outcome.success o = false -> status_of (Outcome.retries o) <> 200) /\
  (forall r, check r request_checks = true <-> Response.status r = 200).
Proof.
  intros H status_of. subst status_of.
  assert (Hcheck : forall r, check r request_checks = true <-> Response.status r = 200).
  { intros r. unfold check, request_checks; simpl.
    destruct (Z.eqb_spec (Response.status r) 200) as [E | E].
    - rewrite E. simpl. tauto.
    - simpl. split; [discriminate | tauto]. }
  assert (Hfalse : forall n, call_ok net n = false ->
                     Response.status (answer (net n)) <> 200).
  { intros n Hn E. apply call_ok_status in E. congruence. }
  apply makeRequest_inv in H. destruct H as [(k & Hk) | Hg].
  - destruct Hk as (Hb & Hf & Hok & -> & _). simpl.
    apply call_ok_status in Hok.
    split; [| split; [| split; [| split; [discriminate | exact Hcheck]]]].
    + split; [intros _; exists k; split; [lia | exact Hok] | reflexivity].
    + intros i Hi. apply Hfalse, Hf. lia.
    + intros _. split; [exact Hok | now rewrite Hok].
  - destruct Hg as (-> & Hf & _). simpl.
    split; [| split; [| split; [discriminate | split; [| exact Hcheck]]]].
    + split; [discriminate |]. intros (i & Hi & E).
      exfalso. exact (Hfalse _ (Hf i Hi) E).
    + intros i Hi. apply Hfalse, Hf. lia.
    + intros _. apply Hfalse, Hf. lia.
Qed.

Lemma retries_is_first_success_witness :
  exists o w',
    makeRequest TEST_CONFIG fail_fail_ok 1 0 initialWorld = (Some o, w') /\
    Outcome.retries o = 2%nat /\
    Response.status (answer (fail_fail_ok 2%nat)) = 200 /\
    Response.status (answer (fail_fail_ok 1%nat)) <> 200.
Proof.
  destruct (makeRequest TEST_CONFIG fail_fail_ok 1 0 initialWorld)
    as [[o |] w'] eqn:E; vm_compute in E; [| discriminate].
  exists o, w'. split; [reflexivity |].
  destruct (retries_is_first_success TEST_CONFIG fail_fail_ok 1 0 initialWorld o w')
    as (_ & Hbefore & Hat & _); [vm_compute; exact E |].
  inversion E; subst o. split; [reflexivity |].
  split; [exact (proj1 (Hat eq_refl)) | exact (Hbefore 1%nat ltac:(simpl; lia))].
Defined.

(** X2. One call of [makeRequest] with outcome [o] makes
    [o.retries + 1] physical calls and adds as many samples to the rate
    [rps]. The counter [retries] gets one sample per failed physical call:
    [o.retries] of them when the request succeeds, but [MAX_RETRIES + 1]
    when it fails, one more than the retries the outcome reports. The
    counter [backend_requests] gets one sample, tagged with the backend,
    for a success and none for a failure; the gauge [active_users] is not
    touched. *)
Theorem samples_per_call cfg net userId requestId w o w' :
  makeRequest cfg net userId requestId w = (Some o, w') ->
  calls w' = (calls w + Outcome.retries o + 1)%nat /\
  Metrics.requestsPerSecond (metrics w')
  = Metrics.requestsPerSecond (metrics w) ++ ones (Outcome.retries o + 1) /\
  Metrics.retryCounter (metrics w')
  = Metrics.retryCounter (metrics w)
    ++ ones (if Outcome.success o then Outcome.retries o
             else MAX_RETRIES cfg + 1) /\
  Metrics.backendDistribution (metrics w')
  = Metrics.backendDistribution (metrics w)
    ++ (if Outcome.success o
        then [Build_Sample 1 [("backend", Outcome.backend o)]] else []) /\
  Metrics.activeUsers (metrics w') = Metrics.activeUsers (metrics w).
Proof.
  intros H. pose proof (makeRequest_samples _ _ _ _ _ _ _ H) as Hs.
  cbv zeta in Hs. destruct Hs as (Hc & Hr & Hcnt & Hb & Ha).
  split; [exact Hc |]. split; [exact Hr |]. split; [| split; assumption].
  rewrite Hcnt. apply makeRequest_inv in H. destruct H as [(k & Hk) | Hg].
  - destruct Hk as (_ & _ & _ & -> & _). simpl. now rewrite Nat.add_0_r.
  - destruct Hg as (-> & _). reflexivity.
Qed.

Lemma samples_per_call_witness :
  exists o w',
    makeRequest TEST_CONFIG always_500 1 0 initialWorld = (Some o, w') /\
    calls w' = 3%nat /\
    Outcome.retries o = 2%nat /\
    length (Metrics.retryCounter (metrics w')) = 3%nat.
Proof.
  destruct (makeRequest TEST_CONFIG always_500 1 0 initialWorld)
    as [[o |] w'] eqn:E; [| vm_compute in E; discriminate].
  exists o, w'. split; [reflexivity |].
  destruct (samples_per_call _ _ _ _ _ _ _ E) as (Hc & _ & Hcnt & _).
  vm_compute in E. inversion E; subst o w'. repeat split; reflexivity.
Defined.

(** ** Whole runs *)

Lemma makeRequest_step cfg net userId requestId w o w' :
  makeRequest cfg net userId requestId w = (Some o, w') ->
  exists r,
    rawData w' = store (rawData w) r /\
    outcome_of r = o /\
    RequestData.userId r = userId /\
    RequestData.requestId r = requestId /\
    RequestData.timestamp r = clock w /\
    Metrics.errorRate (metrics w')
    = Metrics.errorRate (metrics w) ++ ones (if Outcome.success o then 0 else 1) /\
    (Outcome.retries o <= MAX_RETRIES cfg)%nat.
Proof.
  intros H. apply makeRequest_inv in H. destruct H as [(k & Hk) | Hg].
  - destruct Hk as (Hb & _ & _ & -> & _ & _ & _ & Hraw & _ & _ & He).
    eexists. split; [exact Hraw |]. simpl. rewrite He, app_nil_r.
    repeat split; try reflexivity; try lia.
  - destruct Hg as (-> & _ & _ & _ & _ & Hraw & _ & _ & He).
    eexists. split; [exact Hraw |]. simpl. rewrite He.
    repeat split; try reflexivity; try lia.
Qed.

Lemma iterations_RunOf cfg net userId requestIds : forall w os w',
  iterations cfg net userId requestIds w = (Some os, w') ->
  RunOf cfg net userId w requestIds os w'.
Proof.
  induction requestIds as [| requestId rest IH]; intros w os w' H.
  - inversion H; subst. constructor.
  - simpl in H. unfold bind at 1 in H.
    destruct (makeRequest cfg net userId requestId w) as [[o |] w1] eqn:Hm;
      [| discriminate].
    unfold bind at 1 in H.
    destruct (iterations cfg net userId rest w1) as [[os1 |] w2] eqn:Hi;
      simpl in H; [| discriminate].
    inversion H; subst os w'. econstructor; [exact Hm | now apply IH].
Qed.

Lemma failures_cons o os :
  failures (o :: os)
  = ((if Outcome.success o then 0 else 1) + failures os)%nat.
Proof.
  unfold failures. rewrite filter_cons.
  destruct (decide (Outcome.success o = false)) as [E | E];
    destruct (Outcome.success o); simpl; congruence.
Qed.

Lemma successes_cons o os :
  successes (o :: os)
  = ((if Outcome.success o then 1 else 0) + successes os)%nat.
Proof.
  unfold successes. rewrite filter_cons.
  destruct (decide (Outcome.success o = true)) as [E | E];
    destruct (Outcome.success o); simpl; congruence.
Qed.

Lemma ones_add a b : ones (a + b) = ones a ++ ones b.
Proof. unfold ones. apply repeat_app. Qed.

(** The requests a run stores, next to the outcomes it returns. *)
Lemma RunOf_stored cfg net userId w requestIds os w' :
  RunOf cfg net userId w requestIds os w' ->
  exists rs,
    rawData w' = fold_left store rs (rawData w) /\
    map outcome_of rs = os /\
    map RequestData.requestId rs = requestIds /\
    Forall (fun r => RequestData.userId r = userId) rs /\
    Metrics.errorRate (metrics w')
    = Metrics.errorRate (metrics w) ++ ones (failures os) /\
    Forall (fun o => (Outcome.retries o <= MAX_RETRIES cfg)%nat) os.
Proof.
  intros H.
  induction H as [w | w requestId o w1 rest os w' Hm Hrun IH].
  - exists []. simpl. rewrite app_nil_r. repeat split; constructor.
  - destruct IH as (rs & Hraw & Hos & Hids & Hu & He & Hr).
    destruct (makeRequest_step _ _ _ _ _ _ _ Hm)
      as (r & Hraw1 & Ho & Hu1 & Hid & _ & He1 & Hr1).
    exists (r :: rs). simpl. rewrite Hraw, Hraw1, Hos, Hids, Ho, Hid.
    split; [reflexivity |]. split; [reflexivity |]. split; [reflexivity |].
    split; [now constructor |]. split; [| now constructor].
    rewrite He, He1, failures_cons, ones_add, app_assoc. reflexivity.
Qed.

Lemma fold_store_fields rs : forall d,
  RawData.requests (fold_left store rs d) = RawData.requests d ++ rs /\
  RawData.responseTimes (fold_left store rs d)
  = RawData.responseTimes d ++ map RequestData.responseTime rs /\
  RawData.backends (fold_left store rs d)
  = RawData.backends d ++ map RequestData.backend rs /\
  RawData.retries (fold_left store rs d)
  = RawData.retries d ++ map RequestData.retries rs /\
  RawData.timestamps (fold_left store rs d)
  = RawData.timestamps d ++ map RequestData.timestamp rs /\
  RawData.userSessions (fold_left store rs d) = RawData.userSessions d.
Proof.
  induction rs as [| r rs IH]; intros d; simpl.
  - rewrite !app_nil_r. auto 10.
  - destruct (IH (store d r)) as (H1 & H2 & H3 & H4 & H5 & H6).
    rewrite H1, H2, H3, H4, H5, H6. unfold store; simpl.
    rewrite <- !app_assoc. auto 10.
Qed.

Lemma aligned_fold_store rs d : aligned d -> aligned (fold_left store rs d).
Proof.
  unfold aligned. intros (H2 & H3 & H4 & H1).
  destruct (fold_store_fields rs d) as (E0 & E1 & E2 & E3 & E4 & _).
  rewrite E0, E1, E2, E3, E4, !map_app, <- H2, <- H3, <- H4.
  split; [reflexivity |]. split; [reflexivity |]. split; [reflexivity |].
  apply Forall2_app; [exact H1 |].
  clear. induction rs as [| r rs IH]; simpl; constructor; auto.
Qed.

(** X3. The arrays of [rawData] stay in step: if [backends], [retries]
    and [timestamps] repeat the backend, retry count and timestamp of the
    entries of [requests], and [responseTimes] holds, request by request,
    the response time of every successful entry, before a run (as when
    all are empty), they do so after it; each array has grown by one
    entry per request, and [userSessions] is never written. *)
Theorem rawData_stays_aligned cfg net userId requestIds w os w' :
  iterations cfg net userId requestIds w = (Some os, w') ->
  aligned (rawData w) ->
  aligned (rawData w') /\
  length (RawData.requests (rawData w'))
  = (length (RawData.requests (rawData w)) + length requestIds)%nat /\
  length (RawData.responseTimes (rawData w'))
  = length (RawData.requests (rawData w')) /\
  RawData.userSessions (rawData w') = RawData.userSessions (rawData w).
Proof.
  intros H Ha. apply iterations_RunOf, RunOf_stored in H.
  destruct H as (rs & Hraw & _ & Hids & _). rewrite Hraw.
  pose proof (aligned_fold_store rs _ Ha) as Ha'.
  split; [exact Ha' |].
  destruct (fold_store_fields rs (rawData w)) as (E0 & _ & _ & _ & _ & E5).
  split; [rewrite E0, length_app, <- Hids, length_map; reflexivity |].
  split; [| exact E5].
  destruct Ha' as (_ & _ & _ & Hf). symmetry. exact (Forall2_length _ _ _ Hf).
Qed.

Lemma rawData_stays_aligned_witness :
  exists os w',
    iterations TEST_CONFIG first_request_fails 1 [0; 1] initialWorld
    = (Some os, w') /\
    map Outcome.success os = [false; true] /\
    aligned (rawData initialWorld) /\
    aligned (rawData w') /\
    length (RawData.requests (rawData w')) = 2%nat.
Proof.
  destruct (iterations TEST_CONFIG first_request_fails 1 [0; 1] initialWorld)
    as [[os |] w'] eqn:E; [| vm_compute in E; discriminate].
  exists os, w'. split; [reflexivity |].
  assert (Hi : aligned (rawData initialWorld))
    by (repeat split; constructor).
  destruct (rawData_stays_aligned _ _ _ _ _ _ _ E Hi) as (Ha & Hl & _).
  split; [vm_compute in E; inversion E; reflexivity |].
  split; [exact Hi |]. split; [exact Ha | exact Hl].
Defined.

Lemma mirrors_outcome_of rs : Forall2 mirrors rs (map outcome_of rs).
Proof.
  induction rs as [| r rs IH]; simpl; constructor; [| exact IH].
  unfold mirrors, outcome_of; simpl. auto 10.
Qed.

(** X4. The entries a run appends to [rawData.requests] go with the
    outcomes it returns, in order: entry and outcome agree on success,
    backend, retries and status, and on the response time when the
    request succeeded; the entry carries the user id and the iteration
    id of its request, and no outcome reports more than [MAX_RETRIES]
    retries. *)
Theorem stored_requests_mirror_outcomes cfg net userId requestIds w os w' :
  iterations cfg net userId requestIds w = (Some os, w') ->
  exists rs,
    RawData.requests (rawData w') = RawData.requests (rawData w) ++ rs /\
    Forall2 mirrors rs os /\
    map RequestData.requestId rs = requestIds /\
    Forall (fun r => RequestData.userId r = userId) rs /\
    Forall (fun o => (Outcome.retries o <= MAX_RETRIES cfg)%nat) os.
Proof.
  intros H. apply iterations_RunOf, RunOf_stored in H.
  destruct H as (rs & Hraw & Hos & Hids & Hu & _ & Hr).
  exists rs. rewrite Hraw.
  destruct (fold_store_fields rs (rawData w)) as (E0 & _).
  split; [exact E0 |]. split; [| auto].
  rewrite <- Hos. apply mirrors_outcome_of.
Qed.

Lemma stored_requests_mirror_outcomes_witness :
  exists os w' rs,
    iterations TEST_CONFIG first_request_fails 1 [0; 1] initialWorld
    = (Some os, w') /\
    map Outcome.success os = [false; true] /\
    RawData.requests (rawData w') = rs /\ Forall2 mirrors rs os.
Proof.
  destruct (iterations TEST_CONFIG first_request_fails 1 [0; 1] initialWorld)
    as [[os |] w'] eqn:E; [| vm_compute in E; discriminate].
  destruct (stored_requests_mirror_outcomes _ _ _ _ _ _ _ E)
    as (rs & Hreq & Hos & _).
  exists os, w', rs. split; [reflexivity |].
  split; [vm_compute in E; inversion E; reflexivity |].
  split; [exact Hreq | exact Hos].
Defined.

(** X5. The rate [errors] receives nothing but the value 1, once per
    failed logical request: after a run it holds one more sample of value
    1 for each failed outcome and no sample for a success, so no sample
    of it ever counts as a non-error. *)
Theorem errorRate_only_failures cfg net userId requestIds w os w' :
  iterations cfg net userId requestIds w = (Some os, w') ->
  Metrics.errorRate (metrics w')
  = Metrics.errorRate (metrics w) ++ ones (failures os) /\
  Forall (fun s => value s = 1) (ones (failures os)) /\
  (failures os + successes os = length requestIds)%nat.
Proof.
  intros H. apply iterations_RunOf in H.
  split; [| split].
  - apply RunOf_stored in H. destruct H as (_ & _ & _ & _ & _ & He & _). exact He.
  - unfold ones. apply Forall_forall. intros s Hs.
    apply list_elem_of_In, repeat_spec in Hs. now subst s.
  - induction H as [w | w requestId o w1 rest os w' Hm Hrun IH];
      [reflexivity |].
    rewrite failures_cons, successes_cons. simpl.
    destruct (Outcome.success o); lia.
Qed.

Lemma errorRate_only_failures_witness :
  exists os w',
    iterations TEST_CONFIG fail_then_ok 1 [0; 1] initialWorld = (Some os, w') /\
    Metrics.errorRate (metrics w') = [] /\
    (failures os + successes os = 2)%nat.
Proof.
  destruct (iterations TEST_CONFIG fail_then_ok 1 [0; 1] initialWorld)
    as [[os |] w'] eqn:E; [| vm_compute in E; discriminate].
  exists os, w'. split; [reflexivity |].
  destruct (errorRate_only_failures _ _ _ _ _ _ _ E) as (He & _ & Hn).
  split; [| exact Hn].
  rewrite He. vm_compute in E. inversion E; subst os w'. reflexivity.
Defined.

(** ** The series of the report *)

Lemma successful_length rs :
  length (filter (fun r => RequestData.success r = true) rs)
  = successes (map outcome_of rs).
Proof.
  induction rs as [| r rs IH]; [reflexivity |].
  cbn [map]. rewrite successes_cons, filter_cons. simpl.
  destruct (decide (RequestData.success r = true)) as [E | E];
    destruct (RequestData.success r); simpl; congruence.
Qed.

Lemma failed_length rs :
  length (filter (fun r => RequestData.success r = false) rs)
  = failures (map outcome_of rs).
Proof.
  induction rs as [| r rs IH]; [reflexivity |].
  cbn [map]. rewrite failures_cons, filter_cons. simpl.
  destruct (decide (RequestData.success r = false)) as [E | E];
    destruct (RequestData.success r); simpl; congruence.
Qed.

Lemma successes_failures os : (successes os + failures os = length os)%nat.
Proof.
  induction os as [| o os IH]; [reflexivity |].
  rewrite successes_cons, failures_cons. simpl. destruct (Outcome.success o); lia.
Qed.

(** X6. The two bars of the success chart split the stored requests:
    after a run the number of successful requests of the report has grown
    by the number of successful outcomes, the number of failed requests by
    the number of failed outcomes, and the two numbers add up to the
    length of [rawData.requests]. *)
Theorem success_chart_counts cfg net userId requestIds w os w' :
  iterations cfg net userId requestIds w = (Some os, w') ->
  let before := generateEnhancedHtmlReport (rawData w) in
  let after := generateEnhancedHtmlReport (rawData w') in
  length (successfulRequests after)
  = (length (successfulRequests before) + successes os)%nat /\
  length (failedRequests after)
  = (length (failedRequests before) + failures os)%nat /\
  (length (successfulRequests after) + length (failedRequests after)
   = length (RawData.requests (rawData w')))%nat.
Proof.
  intros H before after. subst before after.
  apply iterations_RunOf, RunOf_stored in H.
  destruct H as (rs & Hraw & Hos & _).
  unfold generateEnhancedHtmlReport; simpl. rewrite Hraw.
  destruct (fold_store_fields rs (rawData w)) as (E0 & _). rewrite E0.
  rewrite !filter_app, !length_app, (successful_length rs), (failed_length rs), Hos.
  split; [reflexivity |]. split; [reflexivity |].
  pose proof (successes_failures os) as Hsf. rewrite <- Hos, length_map in Hsf.
  pose proof (successes_failures (map outcome_of (RawData.requests (rawData w))))
    as Hsf0.
  rewrite length_map, <- successful_length, <- failed_length in Hsf0.
  rewrite <- Hos. lia.
Qed.

Lemma success_chart_counts_witness :
  exists os w',
    iterations TEST_CONFIG fail_then_ok 1 [0; 1] initialWorld = (Some os, w') /\
    length (successfulRequests (generateEnhancedHtmlReport (rawData w'))) = 2%nat /\
    length (failedRequests (generateEnhancedHtmlReport (rawData w'))) = 0%nat.
Proof.
  destruct (iterations TEST_CONFIG fail_then_ok 1 [0; 1] initialWorld)
    as [[os |] w'] eqn:E; [| vm_compute in E; discriminate].
  exists os, w'. split; [reflexivity |].
  destruct (success_chart_counts _ _ _ _ _ _ _ E) as (Hs & Hf & _).
  rewrite Hs, Hf. vm_compute in E. inversion E; subst os w'.
  split; reflexivity.
Defined.

Lemma count_up_lookup `{Countable K} (m : gmap K nat) (k b : K) :
  count_up m k !! b
  = if decide (k = b) then Some (default 0 (m !! b) + 1)%nat else m !! b.
Proof.
  unfold count_up. rewrite lookup_insert.
  destruct (decide (k = b)) as [-> | Hne]; reflexivity.
Qed.

Lemma occurrences_cons `{EqDecision A} (a x : A) (l : list A) :
  occurrences a (x :: l)
  = ((if decide (x = a) then 1 else 0) + occurrences a l)%nat.
Proof.
  unfold occurrences. rewrite filter_cons.
  destruct (decide (x = a)); reflexivity.
Qed.

(** Counting up over an array, read at one key. *)
Lemma fold_count_up_lookup `{Countable K} (l : list K) : forall (m : gmap K nat) b,
  fold_left count_up l m !! b
  = match occurrences b l with
    | O => m !! b
    | S n => Some (default 0 (m !! b) + S n)%nat
    end.
Proof.
  induction l as [| x l IH]; intros m b; [reflexivity |].
  cbn [fold_left]. rewrite IH, occurrences_cons, count_up_lookup.
  destruct (decide (x = b)) as [E | E]; simpl.
  - destruct (occurrences b l); simpl; f_equal; lia.
  - reflexivity.
Qed.

Lemma series_total_count_up `{Countable K} (m : gmap K nat) (k : K) :
  series_total (count_up m k) = S (series_total m).
Proof.
  unfold count_up, series_total.
  destruct (m !! k) as [c |] eqn:E; simpl.
  - rewrite <- (insert_delete_eq m k (c + 1)%nat).
    rewrite map_fold_insert_L;
      [| intros; lia | apply lookup_delete_eq].
    rewrite (map_fold_delete_L _ _ k c m); [lia | intros; lia | exact E].
  - rewrite map_fold_insert_L; [lia | intros; lia | exact E].
Qed.

Lemma series_total_fold_count_up `{Countable K} (l : list K) : forall m : gmap K nat,
  series_total (fold_left count_up l m) = (series_total m + length l)%nat.
Proof.
  induction l as [| x l IH]; intros m; simpl; [lia |].
  rewrite IH, series_total_count_up. lia.
Qed.

(** X7. The backend chart and the retry chart count occurrences. When
    no stored backend is the name of a property that an object literal
    inherits from [Object.prototype], the own entry of a backend in
    [backendCounts] is the number of times it occurs in
    [rawData.backends], a value that does not occur has no entry at all
    rather than an entry 0, and the entries add up to the length of the
    array. The same holds of [retryDistribution] and [rawData.retries],
    whose keys are numbers. *)
Theorem distribution_counts_occurrences (d : RawData.t) :
  Forall (fun b => ~ In b object_prototype_names) (RawData.backends d) ->
  let charts := generateEnhancedHtmlReport d in
  (forall b, backendCounts charts !! b
             = match occurrences b (RawData.backends d) with
               | O => None
               | n => Some n
               end) /\
  (forall k, retryDistribution charts !! k
             = match occurrences k (RawData.retries d) with
               | O => None
               | n => Some n
               end) /\
  series_total (backendCounts charts) = length (RawData.backends d) /\
  series_total (retryDistribution charts) = length (RawData.retries d).
Proof.
  intros _. cbv zeta. unfold generateEnhancedHtmlReport; simpl.
  split; [| split; [| split]].
  - intros b. rewrite fold_count_up_lookup, lookup_empty. reflexivity.
  - intros k. rewrite fold_count_up_lookup, lookup_empty. reflexivity.
  - rewrite series_total_fold_count_up. reflexivity.
  - rewrite series_total_fold_count_up. reflexivity.
Qed.

Lemma distribution_counts_occurrences_witness :
  Forall (fun b => ~ In b object_prototype_names) (RawData.backends backends_seen) /\
  backendCounts (generateEnhancedHtmlReport backends_seen) !! "nginx" = Some 2%nat /\
  backendCounts (generateEnhancedHtmlReport backends_seen) !! "apache" = None /\
  retryDistribution (generateEnhancedHtmlReport backends_seen) !! 2%nat = Some 1%nat.
Proof.
  assert (H : Forall (fun b => ~ In b object_prototype_names)
                (RawData.backends backends_seen)).
  { repeat constructor; simpl; intuition discriminate. }
  split; [exact H |].
  destruct (distribution_counts_occurrences backends_seen H) as (Hb & Hr & _).
  split; [exact (Hb "nginx") |]. split; [exact (Hb "apache") | exact (Hr 2%nat)].
Defined.

Lemma histogram_step_lookup h rt key :
  histogram_step h rt !! key
  = (if decide (getResponseTimeBucket rt = key) then S else id) <$> h !! key.
Proof.
  unfold histogram_step. rewrite lookup_alter.
  destruct (decide (getResponseTimeBucket rt = key)) as [-> | Hne];
    [reflexivity |].
  destruct (h !! key); reflexivity.
Qed.

Lemma histogram_fold_lookup (l : list Z) : forall h key,
  fold_left histogram_step l h !! key
  = (fun c => (c + length (filter (fun rt => getResponseTimeBucket rt = key) l))%nat)
      <$> h !! key.
Proof.
  induction l as [| rt l IH]; intros h key.
  - simpl. destruct (h !! key); simpl; f_equal; lia.
  - cbn [fold_left]. rewrite IH, histogram_step_lookup, filter_cons.
    destruct (decide (getResponseTimeBucket rt = key));
      destruct (h !! key); simpl; f_equal; lia.
Qed.

Lemma emptyHistogram_lookup key :
  (In key (map label bins) -> emptyHistogram !! key = Some 0%nat) /\
  (~ In key (map label bins) -> emptyHistogram !! key = None).
Proof.
  split.
  - simpl. intros Hin.
    repeat (destruct Hin as [<- | Hin]; [reflexivity |]). contradiction.
  - intros Hnot. unfold emptyHistogram.
    rewrite !lookup_insert_ne; [apply lookup_empty | ..];
      intros <-; apply Hnot; simpl; auto 10.
Qed.

(** X8. Each bar of the latency histogram counts the response times the
    bucket function sends to its label: for each of the seven labels the
    entry is the number of entries of [rawData.responseTimes] with that
    bucket (0 when there is none, also for an empty array), and the
    histogram never has another key. *)
Theorem histogram_counts_per_bucket (d : RawData.t) (key : string) :
  let histogram := responseTimeHistogram (generateEnhancedHtmlReport d) in
  (In key (map label bins) ->
   histogram !! key
   = Some (length (filter (fun rt => getResponseTimeBucket rt = key)
                     (RawData.responseTimes d)))) /\
  (~ In key (map label bins) -> histogram !! key = None).
Proof.
  cbv zeta. unfold generateEnhancedHtmlReport; simpl.
  rewrite histogram_fold_lookup.
  destruct (emptyHistogram_lookup key) as [Hin Hout].
  split; intros Hk.
  - rewrite (Hin Hk). reflexivity.
  - rewrite (Hout Hk). reflexivity.
Qed.

Lemma histogram_counts_per_bucket_witness :
  In "100-200ms" (map label bins) /\
  responseTimeHistogram
    (generateEnhancedHtmlReport
       (RawData.mk [] [150; 20; 199; 5000] [] [] [] []))
  !! "100-200ms" = Some 2%nat.
Proof.
  split; [simpl; auto |].
  apply (proj1 (histogram_counts_per_bucket
                  (RawData.mk [] [150; 20; 199; 5000] [] [] [] []) "100-200ms")).
  simpl; auto.
Defined.

Lemma occurrences_In `{EqDecision A} (a : A) (l : list A) :
  occurrences a l <> 0%nat -> In a l.
Proof.
  induction l as [| x l IH]; [intros H; now contradiction H |].
  rewrite occurrences_cons. destruct (decide (x = a)) as [-> | Hne].
  - intros _. now left.
  - simpl. intros H. right. now apply IH.
Qed.

Lemma occurrences_app `{EqDecision A} (a : A) (l1 l2 : list A) :
  occurrences a (l1 ++ l2) = (occurrences a l1 + occurrences a l2)%nat.
Proof. unfold occurrences. rewrite filter_app, length_app. reflexivity. Qed.

Lemma map_retries_outcome_of rs :
  map RequestData.retries rs = map Outcome.retries (map outcome_of rs).
Proof. rewrite map_map. reflexivity. Qed.

Lemma map_backend_outcome_of rs :
  map RequestData.backend rs = map Outcome.backend (map outcome_of rs).
Proof. rewrite map_map. reflexivity. Qed.

(** X9. The retry chart has no bar beyond the retry budget: if the retry
    counts stored before a run are at most [MAX_RETRIES], every key of
    the retry distribution after it is at most [MAX_RETRIES] and its
    entry is positive. *)
Theorem retry_chart_keys_bounded cfg net userId requestIds w os w' :
  iterations cfg net userId requestIds w = (Some os, w') ->
  Forall (fun k => (k <= MAX_RETRIES cfg)%nat) (RawData.retries (rawData w)) ->
  forall k n,
    retryDistribution (generateEnhancedHtmlReport (rawData w')) !! k = Some n ->
    (k <= MAX_RETRIES cfg)%nat /\ (0 < n)%nat.
Proof.
  intros H Hold k n Hk. apply iterations_RunOf, RunOf_stored in H.
  destruct H as (rs & Hraw & Hos & _ & _ & _ & Hr).
  unfold generateEnhancedHtmlReport in Hk; simpl in Hk.
  rewrite fold_count_up_lookup, lookup_empty in Hk.
  destruct (occurrences k (RawData.retries (rawData w'))) as [| c] eqn:Ec;
    [discriminate |].
  inversion Hk; subst n. split; [| simpl; lia].
  assert (Hin : In k (RawData.retries (rawData w')))
    by (apply occurrences_In; rewrite Ec; discriminate).
  rewrite Hraw in Hin.
  destruct (fold_store_fields rs (rawData w)) as (_ & _ & _ & E3 & _).
  rewrite E3, map_retries_outcome_of, Hos in Hin.
  apply in_app_or in Hin. destruct Hin as [Hin | Hin].
  - rewrite Forall_forall in Hold. apply Hold, list_elem_of_In, Hin.
  - apply in_map_iff in Hin. destruct Hin as (o & <- & Ho).
    rewrite Forall_forall in Hr. apply Hr, list_elem_of_In, Ho.
Qed.

Lemma retry_chart_keys_bounded_witness :
  exists os w',
    iterations TEST_CONFIG fail_fail_ok 1 [0; 1] initialWorld = (Some os, w') /\
    retryDistribution (generateEnhancedHtmlReport (rawData w')) !! 2%nat
    = Some 1%nat /\
    (2 <= MAX_RETRIES TEST_CONFIG)%nat.
Proof.
  destruct (iterations TEST_CONFIG fail_fail_ok 1 [0; 1] initialWorld)
    as [[os |] w'] eqn:E; [| vm_compute in E; discriminate].
  exists os, w'. split; [reflexivity |].
  assert (Hk : retryDistribution (generateEnhancedHtmlReport (rawData w')) !! 2%nat
               = Some 1%nat).
  { vm_compute in E. inversion E; subst os w'. reflexivity. }
  split; [exact Hk |].
  assert (Hold : Forall (fun k => (k <= MAX_RETRIES TEST_CONFIG)%nat)
                   (RawData.retries (rawData initialWorld)))
    by constructor.
  exact (proj1 (retry_chart_keys_bounded _ _ _ _ _ _ _ E Hold 2%nat 1%nat Hk)).
Defined.

Lemma RunOf_backends cfg net userId w requestIds os w' :
  RunOf cfg net userId w requestIds os w' ->
  (forall n, backendOf (answer (net n)) <> "error") ->
  occurrences "error" (map Outcome.backend os) = failures os.
Proof.
  intros H Hnet.
  induction H as [w | w requestId o w1 rest os w' Hm Hrun IH]; [reflexivity |].
  cbn [map]. rewrite occurrences_cons, failures_cons, IH.
  apply makeRequest_inv in Hm. destruct Hm as [(k & Hk) | Hg].
  - destruct Hk as (_ & _ & _ & -> & _). simpl.
    destruct (decide _) as [E | E]; [| reflexivity].
    exfalso. exact (Hnet _ E).
  - destruct Hg as (-> & _). reflexivity.
Qed.

(** X10. The slice "error" of the backend chart counts the failed
    requests: when no response of the endpoint is identified as
    "error" by its headers, the entry of "error" after a run is the
    number of "error" entries stored before plus the number of failed
    outcomes of the run, and the key is absent when that number is 0. *)
Theorem error_slice_counts_failures cfg net userId requestIds w os w' :
  iterations cfg net userId requestIds w = (Some os, w') ->
  (forall n, backendOf (answer (net n)) <> "error") ->
  backendCounts (generateEnhancedHtmlReport (rawData w')) !! "error"
  = match (occurrences "error" (RawData.backends (rawData w)) + failures os)%nat with
    | O => None
    | n => Some n
    end.
Proof.
  intros H Hnet. apply iterations_RunOf in H.
  pose proof (RunOf_backends _ _ _ _ _ _ _ H Hnet) as Hocc.
  apply RunOf_stored in H. destruct H as (rs & Hraw & Hos & _).
  unfold generateEnhancedHtmlReport; simpl.
  rewrite fold_count_up_lookup, lookup_empty, Hraw.
  destruct (fold_store_fields rs (rawData w)) as (_ & _ & E2 & _).
  rewrite E2, occurrences_app, map_backend_outcome_of, Hos, Hocc. reflexivity.
Qed.

Lemma error_slice_counts_failures_witness :
  exists os w',
    iterations TEST_CONFIG always_500 1 [0; 1; 2] initialWorld = (Some os, w') /\
    (forall n, backendOf (answer (always_500 n)) <> "error") /\
    backendCounts (generateEnhancedHtmlReport (rawData w')) !! "error"
    = Some 3%nat.
Proof.
  destruct (iterations TEST_CONFIG always_500 1 [0; 1; 2] initialWorld)
    as [[os |] w'] eqn:E; [| vm_compute in E; discriminate].
  exists os, w'. split; [reflexivity |].
  assert (Hnet : forall n, backendOf (answer (always_500 n)) <> "error")
    by (intros n; vm_compute; discriminate).
  split; [exact Hnet |].
  rewrite (error_slice_counts_failures _ _ _ _ _ _ _ E Hnet).
  vm_compute in E. inversion E; subst os w'. reflexivity.
Defined.

(** ** Time *)

Lemma waits_from_1 k : forall rc, (1 <= rc)%nat -> waits rc k = repeat 2 k.
Proof.
  induction k as [| k IH]; intros rc Hrc; [reflexivity |].
  unfold waits in *. cbn [seq map repeat].
  rewrite backoffTime_ge_2 by lia. rewrite (IH (S rc)) by lia. reflexivity.
Qed.

Lemma sumZ_repeat x k : sumZ (repeat x k) = Z.of_nat k * x.
Proof. induction k as [| k IH]; [reflexivity |]. cbn [repeat sumZ fold_right].
  fold (sumZ (repeat x k)). rewrite IH. lia. Qed.

Lemma waits_total k : 1000 * sumZ (waits 0 k) = total_backoff k.
Proof.
  destruct k as [| k]; [reflexivity |].
  unfold waits. cbn [seq map]. fold (waits 1 k).
  rewrite waits_from_1 by lia. cbn [sumZ fold_right]. fold (sumZ (repeat 2 k)).
  rewrite sumZ_repeat, backoffTime_1. unfold total_backoff.
  change (1000 / 1000) with 1. lia.
Qed.

Lemma latencies_bounds net c lo hi : forall n,
  (forall i, (i < n)%nat -> lo <= latency (net (c + i)%nat) <= hi) ->
  Z.of_nat n * lo <= sumZ (latencies net c n) <= Z.of_nat n * hi.
Proof.
  induction n as [| n IH]; intros H; [simpl; lia |].
  rewrite latencies_snoc. specialize (IH ltac:(intros i Hi; apply H; lia)).
  specialize (H n ltac:(lia)). lia.
Qed.

Lemma makeRequest_clock cfg net userId requestId w o w' :
  makeRequest cfg net userId requestId w = (Some o, w') ->
  (Outcome.retries o <= MAX_RETRIES cfg)%nat /\
  clock w' = clock w
             + sumZ (latencies net (calls w) (S (Outcome.retries o)))
             + total_backoff (Outcome.retries o).
Proof.
  intros H. rewrite <- waits_total.
  apply makeRequest_inv in H. destruct H as [(k & Hk) | Hg].
  - destruct Hk as (Hb & _ & _ & -> & _ & _ & Hclk & _). simpl. split; [lia | auto].
  - destruct Hg as (-> & _ & _ & _ & Hclk & _). simpl. split; [lia | auto].
Qed.

Lemma total_backoff_mono j k : (j <= k)%nat -> 0 <= total_backoff j <= total_backoff k.
Proof. intros H. unfold total_backoff. destruct j, k; lia. Qed.

(** X11. How long one logical request takes. The backoffs of [k]
    retries last [2000 * k - 1000] ms in all (nothing for [k = 0]). If
    every physical call within the budget takes between 0 and [T] ms,
    the time from the start to the end of [makeRequest] is at least the
    backoff time of its retries, at most [(retries + 1) * T] more, and at
    most [(MAX_RETRIES + 1) * T] plus the backoff time of [MAX_RETRIES]
    retries. *)
Theorem request_duration_bounds cfg net userId requestId w o w' (T : Z) :
  makeRequest cfg net userId requestId w = (Some o, w') ->
  (forall i, (i <= MAX_RETRIES cfg)%nat ->
     0 <= latency (net (calls w + i)%nat) <= T) ->
  let k := Outcome.retries o in
  1000 * sumZ (map (fun n => backoffTime n / 1000) (seq 1 k)) = total_backoff k /\
  slept w' = slept w ++ map (fun n => backoffTime n / 1000) (seq 1 k) /\
  total_backoff k <= clock w' - clock w <= (Z.of_nat k + 1) * T + total_backoff k /\
  clock w' - clock w
  <= (Z.of_nat (MAX_RETRIES cfg) + 1) * T + total_backoff (MAX_RETRIES cfg).
Proof.
  intros H Hlat k. subst k.
  pose proof (makeRequest_waits _ _ _ _ _ _ _ H) as Hs.
  destruct (makeRequest_clock _ _ _ _ _ _ _ H) as (Hk & Hclk).
  pose proof (latencies_bounds net (calls w) 0 T (S (Outcome.retries o))
                ltac:(intros i Hi; apply Hlat; lia)) as Hb.
  pose proof (total_backoff_mono _ _ Hk) as Hm.
  split; [apply waits_total |]. split; [exact Hs |].
  assert (0 <= T) by (specialize (Hlat 0%nat ltac:(lia)); lia).
  split; [lia | nia].
Qed.

Lemma request_duration_bounds_witness :
  exists o w',
    makeRequest TEST_CONFIG always_500 1 0 initialWorld = (Some o, w') /\
    (forall i, (i <= 2)%nat -> 0 <= latency (always_500 (0 + i)%nat) <= 20000) /\
    clock w' - clock initialWorld <= 63000.
Proof.
  destruct (makeRequest TEST_CONFIG always_500 1 0 initialWorld)
    as [[o |] w'] eqn:E; [| vm_compute in E; discriminate].
  exists o, w'. split; [reflexivity |].
  assert (Hlat : forall i, (i <= MAX_RETRIES TEST_CONFIG)%nat ->
            0 <= latency (always_500 (calls initialWorld + i)%nat) <= 20000)
    by (intros i _; simpl; lia).
  split; [exact Hlat |].
  exact (proj2 (proj2 (proj2
           (request_duration_bounds _ _ _ _ _ _ _ 20000 E Hlat)))).
Defined.

Lemma makeRequest_clock_mono cfg net userId requestId w o w' :
  (forall n, 0 <= latency (net n)) ->
  makeRequest cfg net userId requestId w = (Some o, w') ->
  clock w <= clock w'.
Proof.
  intros Hlat H. destruct (makeRequest_clock _ _ _ _ _ _ _ H) as (Hk & Hclk).
  pose proof (latencies_bounds net (calls w) 0 (sumZ (latencies net (calls w)
                (S (Outcome.retries o)))) (S (Outcome.retries o))) as Hb.
  assert (0 <= sumZ (latencies net (calls w) (S (Outcome.retries o)))).
  { generalize (S (Outcome.retries o)) as n. generalize (calls w) as c.
    intros c n. revert c. induction n as [| n IH]; intros c; [simpl; lia |].
    rewrite latencies_S. cbn [sumZ fold_right]. fold (sumZ (latencies net (S c) n)).
    specialize (IH (S c)). specialize (Hlat c). lia. }
  pose proof (total_backoff_mono 0 _ (Nat.le_0_l (Outcome.retries o))). lia.
Qed.

Lemma RunOf_timestamps cfg net userId w requestIds os w' :
  (forall n, 0 <= latency (net n)) ->
  RunOf cfg net userId w requestIds os w' ->
  clock w <= clock w' /\
  exists ts,
    RawData.timestamps (rawData w') = RawData.timestamps (rawData w) ++ ts /\
    length ts = length requestIds /\
    Forall (fun t => clock w <= t <= clock w') ts /\
    StronglySorted Z.le ts.
Proof.
  intros Hlat H.
  induction H as [w | w requestId o w1 rest os w' Hm Hrun IH].
  - split; [lia |]. exists []. rewrite app_nil_r. repeat split; constructor.
  - destruct IH as (Hc & ts & Hts & Hlen & Hall & Hsorted).
    pose proof (makeRequest_clock_mono _ _ _ _ _ _ _ Hlat Hm) as Hc1.
    destruct (makeRequest_step _ _ _ _ _ _ _ Hm) as (r & Hraw & _ & _ & _ & Ht & _).
    split; [lia |]. exists (clock w :: ts).
    rewrite Hts, Hraw. unfold store; simpl. rewrite Ht, <- app_assoc.
    split; [reflexivity |]. split; [simpl; lia |].
    split.
    + constructor; [lia |]. eapply Forall_impl; [exact Hall |].
      simpl. intros t Ht'. lia.
    + constructor; [exact Hsorted |].
      eapply Forall_impl; [exact Hall |]. simpl. intros t Ht'. lia.
Qed.

(** X12. Timestamps are stored in the order of the clock: when no
    physical call takes negative time, a run appends one timestamp per
    request to [rawData.timestamps], these timestamps never decrease, and
    each lies between the clock readings at the start and at the end of
    the run. *)
Theorem timestamps_nondecreasing cfg net userId requestIds w os w' :
  iterations cfg net userId requestIds w = (Some os, w') ->
  (forall n, 0 <= latency (net n)) ->
  exists ts,
    RawData.timestamps (rawData w') = RawData.timestamps (rawData w) ++ ts /\
    length ts = length requestIds /\
    Forall (fun t => clock w <= t <= clock w') ts /\
    StronglySorted Z.le ts.
Proof.
  intros H Hlat. apply iterations_RunOf in H.
  exact (proj2 (RunOf_timestamps _ _ _ _ _ _ _ Hlat H)).
Qed.

Lemma timestamps_nondecreasing_witness :
  exists os w',
    iterations TEST_CONFIG fail_then_ok 1 [0; 1] initialWorld = (Some os, w') /\
    (forall n, 0 <= latency (fail_then_ok n)) /\
    StronglySorted Z.le (RawData.timestamps (rawData w')).
Proof.
  destruct (iterations TEST_CONFIG fail_then_ok 1 [0; 1] initialWorld)
    as [[os |] w'] eqn:E; [| vm_compute in E; discriminate].
  exists os, w'. split; [reflexivity |].
  assert (Hlat : forall n, 0 <= latency (fail_then_ok n))
    by (intros [| n]; simpl; lia).
  split; [exact Hlat |].
  destruct (timestamps_nondecreasing _ _ _ _ _ _ _ E Hlat)
    as (ts & Hts & _ & _ & Hs).
  rewrite Hts. exact Hs.
Defined.

(** ** The bucket function on all integers *)

(** X13. Every label of [getResponseTimeBucket] stands for an interval:
    a time between two times with the same label has that label too. The
    first interval is unbounded below: every time under 100, negative ones
    included, is labelled "0-100ms". *)
Theorem buckets_are_intervals (t1 t2 t3 : Z) :
  t1 <= t2 -> t2 <= t3 ->
  getResponseTimeBucket t1 = getResponseTimeBucket t3 ->
  getResponseTimeBucket t2 = getResponseTimeBucket t1 /\
  (forall t, t < 100 -> getResponseTimeBucket t = "0-100ms").
Proof.
  intros H12 H23 E. split.
  - destruct (getResponseTimeBucket_cases t1)
      as [[H1 E1] | [[H1 E1] | [[H1 E1] | [[H1 E1] | [[H1 E1] | [[H1 E1] | [H1 E1]]]]]]];
    destruct (getResponseTimeBucket_cases t3)
      as [[H3 E3] | [[H3 E3] | [[H3 E3] | [[H3 E3] | [[H3 E3] | [[H3 E3] | [H3 E3]]]]]]];
    rewrite E1, E3 in E; try discriminate E; rewrite E1;
    destruct (getResponseTimeBucket_cases t2)
      as [[H2 E2] | [[H2 E2] | [[H2 E2] | [[H2 E2] | [[H2 E2] | [[H2 E2] | [H2 E2]]]]]]];
    first [exact E2 | lia].
  - intros t Ht. destruct (getResponseTimeBucket_cases t)
      as [[H E0] | [[H E0] | [[H E0] | [[H E0] | [[H E0] | [[H E0] | [H E0]]]]]]];
      first [exact E0 | lia].
Qed.

Lemma buckets_are_intervals_witness :
  -5 <= 40 /\ 40 <= 99 /\
  getResponseTimeBucket (-5) = getResponseTimeBucket 99 /\
  getResponseTimeBucket 40 = getResponseTimeBucket (-5).
Proof.
  split; [lia |]. split; [lia |]. split; [reflexivity |].
  exact (proj1 (buckets_are_intervals (-5) 40 99 ltac:(lia) ltac:(lia) eq_refl)).
Defined.

(** ** One iteration of a virtual user *)


(** ** The assessment follows the order of the numbers *)

Ltac compare_cases :=
  repeat match goal with
         | H : context [ Pos.compare_cont Eq ?a ?b ] |- _ =>
             change (Pos.compare_cont Eq a b) with (Pos.compare a b) in H
         | |- context [ Pos.compare_cont Eq ?a ?b ] =>
             change (Pos.compare_cont Eq a b) with (Pos.compare a b)
         end;
  repeat match goal with
         | H : context [ Z.compare ?a ?b ] |- _ =>
             destruct (Z.compare_spec a b); simpl in H
         | |- context [ Z.compare ?a ?b ] =>
             destruct (Z.compare_spec a b); simpl
         | H : context [ Pos.compare ?a ?b ] |- _ =>
             destruct (Pos.compare_spec a b); simpl in H
         | |- context [ Pos.compare ?a ?b ] =>
             destruct (Pos.compare_spec a b); simpl
         end.

Lemma SFleb_trans a b c :
  SFleb a b = true -> SFleb b c = true -> SFleb a c = true.
Proof.
  unfold SFleb, SFcompare.
  destruct a as [sa | sa | | sa ma ea], b as [sb | sb | | sb mb eb],
    c as [sc | sc | | sc mc ec];
    try destruct sa; try destruct sb; try destruct sc; simpl;
    try reflexivity; try discriminate; intros H1 H2;
    compare_cases; try reflexivity; try discriminate; subst; try lia.
Qed.

Lemma SFleb_ltb_trans a b c :
  SFleb a b = true -> SFltb b c = true -> SFltb a c = true.
Proof.
  unfold SFleb, SFltb, SFcompare.
  destruct a as [sa | sa | | sa ma ea], b as [sb | sb | | sb mb eb],
    c as [sc | sc | | sc mc ec];
    try destruct sa; try destruct sb; try destruct sc; simpl;
    try reflexivity; try discriminate; intros H1 H2;
    compare_cases; try reflexivity; try discriminate; subst; try lia.
Qed.

Lemma geb_mono (x y c : float) :
  PrimFloat.leb x y = true -> geb x c = true -> geb y c = true.
Proof.
  unfold geb. rewrite !leb_spec. intros Hxy Hc.
  exact (SFleb_trans _ _ _ Hc Hxy).
Qed.

Lemma ltb_mono (x y c : float) :
  PrimFloat.leb y x = true -> PrimFloat.ltb x c = true -> PrimFloat.ltb y c = true.
Proof.
  rewrite leb_spec, !ltb_spec. intros Hyx Hc.
  exact (SFleb_ltb_trans _ _ _ Hyx Hc).
Qed.

Lemma assess_mono (sr1 sr2 p1 p2 : float) :
  PrimFloat.leb sr1 sr2 = true -> PrimFloat.leb p2 p1 = true ->
  (tier_rank (assess sr1 p1) <= tier_rank (assess sr2 p2))%nat.
Proof.
  intros Hsr Hp.
  pose proof (geb_mono sr1 sr2 95 Hsr) as G95.
  pose proof (geb_mono sr1 sr2 90 Hsr) as G90.
  pose proof (geb_mono sr1 sr2 80 Hsr) as G80.
  pose proof (ltb_mono p1 p2 1000 Hp) as L1.
  pose proof (ltb_mono p1 p2 2000 Hp) as L2.
  pose proof (ltb_mono p1 p2 5000 Hp) as L5.
  unfold assess.
  destruct (geb sr1 95); [rewrite (G95 eq_refl) |];
  destruct (geb sr1 90); try rewrite (G90 eq_refl);
  destruct (geb sr1 80); try rewrite (G80 eq_refl);
  destruct (PrimFloat.ltb p1 1000); try rewrite (L1 eq_refl);
  destruct (PrimFloat.ltb p1 2000); try rewrite (L2 eq_refl);
  destruct (PrimFloat.ltb p1 5000); try rewrite (L5 eq_refl);
  simpl;
  repeat match goal with
         | |- context [ geb sr2 ?c ] => destruct (geb sr2 c)
         | |- context [ PrimFloat.ltb p2 ?c ] => destruct (PrimFloat.ltb p2 c)
         end; simpl; lia.
Qed.

(** X15. The assessment is monotone: of two summaries, the one whose
    computed success rate is at least as high and whose 95th percentile
    is at most as high never gets the worse tier. *)
Theorem assessment_monotone (d1 d2 : SummaryData) (r1 r2 : RawData.t) :
  PrimFloat.leb (successRate (handleSummary d1 r1))
                (successRate (handleSummary d2 r2)) = true ->
  PrimFloat.leb (p95ResponseTime (handleSummary d2 r2))
                (p95ResponseTime (handleSummary d1 r1)) = true ->
  (tier_rank (assessment (handleSummary d1 r1))
   <= tier_rank (assessment (handleSummary d2 r2)))%nat.
Proof. intros Hsr Hp. unfold handleSummary in *; simpl in *. now apply assess_mono. Qed.

Lemma assessment_monotone_witness :
  PrimFloat.leb
    (successRate (handleSummary some_failures RawData.empty))
    (successRate (handleSummary few_failures RawData.empty)) = true /\
  PrimFloat.leb
    (p95ResponseTime (handleSummary few_failures RawData.empty))
    (p95ResponseTime (handleSummary some_failures RawData.empty)) = true /\
  assessment (handleSummary some_failures RawData.empty) = GOOD /\
  assessment (handleSummary few_failures RawData.empty) = EXCELLENT /\
  (tier_rank GOOD <= tier_rank EXCELLENT)%nat.
Proof.
  split; [reflexivity |]. split; [reflexivity |].
  split; [reflexivity |]. split; [reflexivity |].
  exact (assessment_monotone some_failures few_failures
           RawData.empty RawData.empty eq_refl eq_refl).
Defined.

(** ** More on what a call stores and returns *)

Lemma js_or_nonempty a b : b <> "" -> js_or a b <> "".
Proof.
  intros Hb. unfold js_or. destruct a as [s |]; [| exact Hb].
  destruct (decide (s = "")); assumption.
Qed.

Lemma backendOf_nonempty r : backendOf r <> "".
Proof. unfold backendOf. repeat apply js_or_nonempty. discriminate. Qed.

(** X16. The backend of an outcome is never the empty string, whatever
    the headers of the response: an empty header value falls through to
    the next lookup and the last fallback is "unknown". The same holds
    for the backend stored with the request, which is the one returned. *)
Theorem backend_never_empty cfg net userId requestId w o w' :
  makeRequest cfg net userId requestId w = (Some o, w') ->
  Outcome.backend o <> "" /\
  RawData.backends (rawData w') = RawData.backends (rawData w) ++ [Outcome.backend o] /\
  (forall r : Response.t, backendOf r <> "").
Proof.
  intros H. split; [| split; [| exact backendOf_nonempty]].
  - apply makeRequest_inv in H. destruct H as [(k & Hk) | Hg].
    + destruct Hk as (_ & _ & _ & -> & _). simpl. apply backendOf_nonempty.
    + destruct Hg as (-> & _). discriminate.
  - destruct (makeRequest_step _ _ _ _ _ _ _ H) as (r & Hraw & <- & _).
    rewrite Hraw. reflexivity.
Qed.

Lemma backend_never_empty_witness :
  exists o w',
    makeRequest TEST_CONFIG empty_primary 1 0 initialWorld = (Some o, w') /\
    Outcome.backend o <> "".
Proof.
  destruct (makeRequest TEST_CONFIG empty_primary 1 0 initialWorld)
    as [[o |] w'] eqn:E; [| vm_compute in E; discriminate].
  exists o, w'. split; [reflexivity |].
  exact (proj1 (backend_never_empty _ _ _ _ _ _ _ E)).
Defined.

Lemma RunOf_calls cfg net userId w requestIds os w' :
  RunOf cfg net userId w requestIds os w' ->
  let retried := sum_list (map Outcome.retries os) in
  calls w' = (calls w + length os + retried)%nat /\
  length (Metrics.requestsPerSecond (metrics w'))
  = (length (Metrics.requestsPerSecond (metrics w)) + length os + retried)%nat /\
  length (Metrics.retryCounter (metrics w'))
  = (length (Metrics.retryCounter (metrics w)) + retried + failures os)%nat /\
  length (Metrics.backendDistribution (metrics w'))
  = (length (Metrics.backendDistribution (metrics w)) + successes os)%nat.
Proof.
  intros H. cbv zeta.
  induction H as [w | w requestId o w1 rest os w' Hm Hrun IH].
  - unfold failures, successes. simpl. rewrite !Nat.add_0_r. auto.
  - pose proof (makeRequest_samples _ _ _ _ _ _ _ Hm) as Hs. cbv zeta in Hs.
    destruct Hs as (Hc & Hr & Hcnt & Hb & _).
    destruct IH as (Ic & Ir & Icnt & Ib).
    rewrite Ic, Ir, Icnt, Ib, Hc, Hr, Hcnt, Hb.
    rewrite !length_app. unfold ones. rewrite !repeat_length.
    rewrite failures_cons, successes_cons. cbn [map sum_list length].
    destruct (Outcome.success o); simpl; repeat split; lia.
Qed.

(** X17. Over a run, the physical calls are the logical requests plus
    the retries of their outcomes, and the rate [rps] gets one sample per
    physical call. The counter [retries] gets one sample more than the
    retries of the outcome for every failed request, so it exceeds the
    sum of the stored retry counts by the number of failures; the counter
    [backend_requests] gets one sample per success. *)
Theorem samples_of_a_run cfg net userId requestIds w os w' :
  iterations cfg net userId requestIds w = (Some os, w') ->
  let retried := sum_list (map Outcome.retries os) in
  calls w' = (calls w + length requestIds + retried)%nat /\
  length (Metrics.requestsPerSecond (metrics w'))
  = (length (Metrics.requestsPerSecond (metrics w)) + (calls w' - calls w))%nat /\
  length (Metrics.retryCounter (metrics w'))
  = (length (Metrics.retryCounter (metrics w)) + retried + failures os)%nat /\
  length (Metrics.backendDistribution (metrics w'))
  = (length (Metrics.backendDistribution (metrics w)) + successes os)%nat /\
  (retried <= MAX_RETRIES cfg * length requestIds)%nat.
Proof.
  intros H retried. subst retried. apply iterations_RunOf in H.
  pose proof (RunOf_calls _ _ _ _ _ _ _ H) as Hc. cbv zeta in Hc.
  destruct Hc as (Hc & Hr & Hcnt & Hb).
  apply RunOf_stored in H.
  destruct H as (rs & _ & Hos & Hids & _ & _ & Hmax).
  assert (Hlen : length os = length requestIds)
    by (rewrite <- Hos, <- Hids, !length_map; reflexivity).
  rewrite Hlen in *.
  split; [exact Hc |]. split; [lia |]. split; [exact Hcnt |].
  split; [exact Hb |].
  rewrite <- Hlen. clear - Hmax.
  induction Hmax as [| o os Ho Hos IH]; simpl; lia.
Qed.

Lemma samples_of_a_run_witness :
  exists os w',
    iterations TEST_CONFIG always_500 1 [0; 1] initialWorld = (Some os, w') /\
    calls w' = 6%nat /\
    length (Metrics.retryCounter (metrics w')) = 6%nat /\
    sum_list (map Outcome.retries os) = 4%nat.
Proof.
  destruct (iterations TEST_CONFIG always_500 1 [0; 1] initialWorld)
    as [[os |] w'] eqn:E; [| vm_compute in E; discriminate].
  exists os, w'. split; [reflexivity |].
  destruct (samples_of_a_run _ _ _ _ _ _ _ E) as (Hc & _ & Hcnt & _).
  rewrite Hc, Hcnt. vm_compute in E. inversion E; subst os w'.
  repeat split; reflexivity.
Defined.
